(** * Megadogs webhook server: de-duplication cache, registration
      supervisor, notification handlers.

    Shallow embedding of [src/unnamed/part_000] (the "synced endpoints"
    server) and of [src/index.js] (the older variant of the same server),
    followed by the properties of the specification that concern them.

    Conventions.
    - A JavaScript number that holds a millisecond clock reading or a
      counter is a [Z]; all the arithmetic of the source on such numbers
      (subtraction, comparison) is exact on integers below 2^53.
    - The [Map] [sentMessages] is an association list in insertion order
      with unique keys, because [Array.from(sentMessages.entries())] exposes
      the order.
    - What the outside world answers (the clock, the outcome of the
      outbound HTTP call) is an explicit argument of each handler. *)

From Stdlib Require Import ZArith List String Ascii Bool Lia DecimalString.
Import ListNotations.

Local Open Scope Z_scope.

(** ** JavaScript values as far as the handlers inspect them *)

Module JS.

(** A parsed JSON value, plus [undefined] for an absent property. Numbers
    are integers (identifiers, counters, clock readings). *)
#[warnings="-register-all"] Inductive jsval : Type :=
| JUndefined
| JNull
| JBool (b : bool)
| JNum (n : Z)
| JStr (s : string)
| JArr (items : list jsval)
| JObj (fields : list (string * jsval)).

(** [ToBoolean]: what [if (x)], [!x] and [x && y] test. *)
Definition truthy (v : jsval) : bool :=
  match v with
  | JUndefined | JNull => false
  | JBool b => b
  | JNum n => negb (n =? 0)
  | JStr s => negb (String.eqb s EmptyString)
  | JArr _ | JObj _ => true
  end.

(** [a || b] *)
Definition js_or (a b : jsval) : jsval := if truthy a then a else b.

(** Integers print in decimal, as JavaScript prints them below 10^21. *)
Definition num_to_string (n : Z) : string :=
  NilZero.string_of_int (Z.to_int n).

(** [ToString], as applied by a template literal [`${x}`]. An array
    prints its items separated by commas, [null] and [undefined] items as
    the empty string. *)
Fixpoint toString (v : jsval) : string :=
  match v with
  | JUndefined => "undefined"
  | JNull => "null"
  | JBool true => "true"
  | JBool false => "false"
  | JNum n => num_to_string n
  | JStr s => s
  | JArr items =>
      let item x :=
        match x with
        | JUndefined | JNull => EmptyString
        | _ => toString x
        end in
      (fix join (l : list jsval) : string :=
         match l with
         | [] => EmptyString
         | [x] => item x
         | x :: rest => item x ++ "," ++ join rest
         end) items
  | JObj _ => "[object Object]"
  end%string.

Fixpoint lookup_field (name : string) (fields : list (string * jsval)) : jsval :=
  match fields with
  | [] => JUndefined
  | (k, v) :: rest => if String.eqb name k then v else lookup_field name rest
  end.

(** Property read [o.name] on a value that is neither [undefined] nor
    [null] (the handlers only read properties behind a truthiness test).
    The primitives have no own property called [id] or [username]. *)
Definition prop (o : jsval) (name : string) : jsval :=
  match o with
  | JObj fields => lookup_field name fields
  | _ => JUndefined
  end.

(** [hay.includes(needle)] *)
Fixpoint includes (needle hay : string) : bool :=
  String.prefix needle hay
  || match hay with
     | EmptyString => false
     | String _ rest => includes needle rest
     end.

End JS.
Export JS.

(** ** The [Map] behind [sentMessages] *)

Module JSMap.

Definition t : Type := list (string * Z).

Fixpoint get (k : string) (m : t) : option Z :=
  match m with
  | [] => None
  | (k', v) :: rest => if String.eqb k k' then Some v else get k rest
  end.

Definition has (k : string) (m : t) : bool :=
  match get k m with Some _ => true | None => false end.

(** [m.set(k, v)]: an existing key keeps its position, a new key goes last. *)
Fixpoint set (k : string) (v : Z) (m : t) : t :=
  match m with
  | [] => [(k, v)]
  | (k', v') :: rest =>
      if String.eqb k k' then (k, v) :: rest else (k', v') :: set k v rest
  end.

Fixpoint delete (k : string) (m : t) : t :=
  match m with
  | [] => []
  | (k', v') :: rest =>
      if String.eqb k k' then rest else (k', v') :: delete k rest
  end.

Definition clear (m : t) : t := [].

Definition size (m : t) : Z := Z.of_nat (List.length m).

Definition entries (m : t) : list (string * Z) := m.

Definition keys (m : t) : list string := map fst m.

(** The representation invariant: a [Map] holds each key once. *)
Definition wf (m : t) : Prop := NoDup (keys m).

End JSMap.

(** ** Process-wide state and the outside world *)

(** The two module-level variables the claims are about:
    [let isHealthy = true] and [const sentMessages = new Map()]. *)
Record server : Type := mkServer {
  isHealthy : bool;
  sentMessages : JSMap.t
}.

Definition initial_server : server :=
  {| isHealthy := true; sentMessages := [] |}.

Definition with_cache (s : server) (m : JSMap.t) : server :=
  {| isHealthy := isHealthy s; sentMessages := m |}.

Definition with_health (s : server) (b : bool) : server :=
  {| isHealthy := b; sentMessages := sentMessages s |}.

(** What [res.status(n).json(o)] or [res.status(n).send(text)] sent. *)
Inductive payload : Type :=
| Json (fields : list (string * jsval))
| Text (s : string).

Record response : Type := mkResponse {
  status : Z;
  body : payload
}.

(** The rejection of [axios.post]/[axios.get]: [error.response?.data]
    ([JUndefined] when the platform never answered) and [error.message]. *)
Record axios_error : Type := mkAxiosError {
  response_data : jsval;
  message : string
}.

(** How the platform answers one outbound call. *)
Inductive upstream : Type :=
| Delivered
| Failed (e : axios_error).

(** One [axios.post(`${TELEGRAM_API}/sendMessage`, ...)]. The templated
    text and the inline keyboard are constants of the source on which no
    property below depends; the recipient and the formatting mode are kept. *)
Record outbound : Type := mkOutbound {
  chat_id : jsval;
  parse_mode : string
}.

(** How an [async (req, res) => ...] handler ends: it has sent a response,
    or an exception left it (its promise rejects and the handler itself has
    sent nothing). *)
Inductive completion : Type :=
| Responded (r : response)
| Threw (exn : string).

Record result : Type := mkResult {
  outcome : completion;
  after : server;
  sends : list outbound
}.

(** What one request observes of the outside world: [Date.now()] at the
    de-duplication test, the answer of the platform, [Date.now()] again
    when the record is written after the [await]. *)
Record world : Type := mkWorld {
  clock_at_check : Z;
  platform : upstream;
  clock_at_mark : Z
}.

(** [error.response?.data?.description] *)
Definition description (e : axios_error) : jsval :=
  match response_data e with
  | JUndefined | JNull => JUndefined
  | d => prop d "description"
  end.

(** [error.response?.data?.description?.includes('bot was blocked')]; the
    platform's [description] is a string whenever it is present. *)
Definition bot_was_blocked (e : axios_error) : bool :=
  match description e with
  | JStr d => includes "bot was blocked" d
  | _ => false
  end.

(** ** The de-duplication cache (part_000, lines 86, 143-151, 176, 217-224,
       248, 344-365, 434-449) *)

Module Cache.

(** [24 * 60 * 60 * 1000], the window of the welcome message. *)
Definition WELCOME_WINDOW : Z := 24 * 60 * 60 * 1000.

(** [7 * 24 * 60 * 60 * 1000], the retention of the hourly sweep. *)
Definition RETENTION : Z := 7 * 24 * 60 * 60 * 1000.

(** [Date.now()] counts the milliseconds since 1970-01-01T00:00:00Z: on a
    host whose clock is set it is a positive integer (about 1.7e12 today). *)
Definition clock_reading (t : Z) : Prop := 0 < t.

(** The condition of line 145,
    [lastSent && (Date.now() - lastSent) < 24 * 60 * 60 * 1000], for
    [lastSent = sentMessages.get(key)], with the window made an argument.
    A missing record is [undefined] and a stored [0] is falsy as well. *)
Definition sentRecently (key : string) (window now : Z) (m : JSMap.t) : bool :=
  match JSMap.get key m with
  | None => false
  | Some lastSent => negb (lastSent =? 0) && (now - lastSent <? window)
  end.

(** The handler goes on to send exactly when the condition of line 145
    fails. *)
Definition shouldSend (key : string) (window now : Z) (m : JSMap.t) : bool :=
  negb (sentRecently key window now m).

(** [sentMessages.set(key, Date.now())], lines 176 and 248. *)
Definition markSent (key : string) (timestamp : Z) (m : JSMap.t) : JSMap.t :=
  JSMap.set key timestamp m.

(** The body of the sweep loop, lines 439-444, for one entry of the
    iteration: [if (timestamp < cutoff) { delete; clearedCount++ }]. *)
Definition sweep_entry (cutoff : Z) (acc : JSMap.t * Z) (e : string * Z)
  : JSMap.t * Z :=
  let '(m, clearedCount) := acc in
  let '(key, timestamp) := e in
  if timestamp <? cutoff
  then (JSMap.delete key m, clearedCount + 1)
  else (m, clearedCount).

(** The sweep callback, lines 434-449, with the retention made an
    argument. The [for ... of sentMessages.entries()] loop visits every
    entry that is present when it is reached; the only mutation is the
    deletion of the entry being visited, so the entries visited are those
    of the map at the start. Returns the map and [clearedCount]. *)
Definition sweep_with (retention now : Z) (m : JSMap.t) : JSMap.t * Z :=
  let cutoff := now - retention in
  fold_left (sweep_entry cutoff) (JSMap.entries m) (m, 0).

Definition sweep (now : Z) (m : JSMap.t) : JSMap.t * Z :=
  sweep_with RETENTION now m.

(** The test of line 440 on one entry, and its negation. *)
Definition stale (cutoff : Z) (e : string * Z) : bool := snd e <? cutoff.
Definition fresh (cutoff : Z) (e : string * Z) : bool := negb (stale cutoff e).

(** The timer callback on the server state. *)
Definition sweep_tick (now : Z) (s : server) : server :=
  with_cache s (fst (sweep now (sentMessages s))).

End Cache.

(** ** The HTTP handlers of part_000 *)

Module Handlers.

Local Open Scope string_scope.

Definition reply (s : server) (posts : list outbound) (code : Z)
           (fields : list (string * jsval)) : result :=
  {| outcome := Responded {| status := code; body := Json fields |};
     after := s;
     sends := posts |}.

Definition throw (s : server) (posts : list outbound) (exn : string) : result :=
  {| outcome := Threw exn; after := s; sends := posts |}.

(** [app.post('/api/sendWelcomeMessage', ...)], lines 134-205. [body] is
    the object [req.body] left by [express.json()]. The embedding follows
    the handler on the requests whose template operands convert to strings
    ([Inputs.printable], below) and on the upstream errors whose
    description is a string or absent ([Inputs.text_or_absent]); on the
    others the source raises a TypeError, which is not embedded. *)
Definition sendWelcomeMessage (w : world) (body : list (string * jsval))
           (s : server) : result :=
  let userId := lookup_field "userId" body in
  let referrerId := lookup_field "referrerId" body in
  if negb (truthy userId) then
    reply s [] 400 [("error", JStr "User ID is required")]
  else
    let messageKey := "welcome_" ++ toString userId in
    if Cache.sentRecently messageKey Cache.WELCOME_WINDOW
                          (clock_at_check w) (sentMessages s)
    then
      reply s [] 200
            [("success", JBool true);
             ("message", JStr "Welcome message already sent recently");
             ("alreadySent", JBool true)]
    else
      let post := {| chat_id := userId; parse_mode := "Markdown" |} in
      match platform w with
      | Delivered =>
          let m := Cache.markSent messageKey (clock_at_mark w) (sentMessages s) in
          reply (with_cache s m) [post] 200
                [("success", JBool true);
                 ("message", JStr "Welcome message sent successfully");
                 ("hasReferrer", JBool (truthy referrerId))]
      | Failed e =>
          (* catch block, lines 185-204; it reads [req.body.userId] *)
          if bot_was_blocked e then
            reply s [post] 200
                  [("success", JBool true);
                   ("message", JStr "User blocked bot");
                   ("botBlocked", JBool true)]
          else
            reply s [post] 200
                  [("success", JBool true);
                   ("message", JStr "Welcome message queued");
                   ("error", js_or (description e) (JStr (message e)))]
      end.

(** The key of line 217, [`referral_${referrerId}_${newUser.id}`]. *)
Definition notificationKey (referrerId newUser : jsval) : string :=
  "referral_" ++ toString referrerId ++ "_" ++ toString (prop newUser "id").

(** [app.post('/api/sendReferralNotification', ...)], lines 208-276.
    [referrerId] and [newUser] are declared by [const] inside the [try]
    block (line 210), so the catch block, a different block, has no
    binding for [referrerId]: the template literal of line 262 raises a
    [ReferenceError] before line 263 can respond. As for the welcome
    route, the embedding follows the handler on the requests whose
    template operands ([referrerId], [newUser.id], [newUser.username])
    convert to strings and on the upstream errors whose description is a
    string or absent. *)
Definition sendReferralNotification (w : world) (body : list (string * jsval))
           (s : server) : result :=
  let referrerId := lookup_field "referrerId" body in
  let newUser := lookup_field "newUser" body in
  if negb (truthy referrerId) || negb (truthy newUser) then
    reply s [] 400 [("error", JStr "Referrer ID and new user data are required")]
  else
    let key := notificationKey referrerId newUser in
    if JSMap.has key (sentMessages s) then
      reply s [] 200
            [("success", JBool true);
             ("message", JStr "Referral notification already sent");
             ("alreadySent", JBool true)]
    else
      let post := {| chat_id := referrerId; parse_mode := "Markdown" |} in
      match platform w with
      | Delivered =>
          let m := Cache.markSent key (clock_at_mark w) (sentMessages s) in
          reply (with_cache s m) [post] 200
                [("success", JBool true);
                 ("message", JStr "Referral notification sent successfully");
                 ("referrerId", referrerId);
                 ("newUserId", prop newUser "id")]
      | Failed e =>
          if bot_was_blocked e then
            throw s [post] "ReferenceError: referrerId is not defined"
          else
            reply s [post] 200
                  [("success", JBool true);
                   ("message", JStr "Referral notification queued");
                   ("error", js_or (description e) (JStr (message e)))]
      end.

(** [app.post('/api/sendBotMessage', ...)], lines 311-341. As in the
    referral handler, [telegramId] is block-scoped to the [try] (line 313)
    and read in the catch block (line 332). *)
Definition sendBotMessage (w : world) (body : list (string * jsval))
           (s : server) : result :=
  let telegramId := lookup_field "telegramId" body in
  let text := lookup_field "message" body in
  if negb (truthy telegramId) || negb (truthy text) then
    reply s [] 400 [("error", JStr "Telegram ID and message are required")]
  else
    let post := {| chat_id := telegramId; parse_mode := "HTML" |} in
    match platform w with
    | Delivered =>
        reply s [post] 200
              [("success", JBool true);
               ("message", JStr "Message sent successfully")]
    | Failed e =>
        if bot_was_blocked e then
          throw s [post] "ReferenceError: telegramId is not defined"
        else
          reply s [post] 500
                [("error", JStr "Failed to send message");
                 ("details", js_or (response_data e) (JStr (message e)))]
    end.

(** [app.delete('/api/clearMessageCache', ...)], lines 344-352. *)
Definition clearMessageCache (s : server) : result :=
  let previousSize := JSMap.size (sentMessages s) in
  reply (with_cache s (JSMap.clear (sentMessages s))) [] 200
        [("success", JBool true);
         ("message", JStr ("Message cache cleared (" ++ num_to_string previousSize
                           ++ " entries removed)"))].

(** [Array.from(sentMessages.entries()).slice(0, 10)] *)
Definition sample (m : JSMap.t) : list (string * Z) :=
  firstn 10 (JSMap.entries m).

Definition entry_json (e : string * Z) : jsval :=
  JArr [JStr (fst e); JNum (snd e)].

(** [app.get('/api/messageCacheStats', ...)], lines 355-365. *)
Definition messageCacheStats (s : server) : result :=
  reply s [] 200
        [("success", JBool true);
         ("totalEntries", JNum (JSMap.size (sentMessages s)));
         ("entries", JArr (map entry_json (sample (sentMessages s))))].

End Handlers.

(** ** Rate limiter and liveness probe (part_000 and index.js, lines 28-38
       and 56-61) *)

(** The two servers that carry these mechanisms. *)
Inductive variant : Type :=
| Legacy   (* src/index.js *)
| Synced.  (* src/unnamed/part_000 *)

Module Health.

Local Open Scope string_scope.

(** [windowMs: 15 * 60 * 1000] *)
Definition windowMs : Z := 15 * 60 * 1000.

(** [max: 5] in index.js, [max: 100] in part_000. *)
Definition max (v : variant) : Z :=
  match v with Legacy => 5 | Synced => 100 end.

(** The [handler] option of [rateLimit], lines 34-37. *)
Definition limit_handler (v : variant) (s : server) : server * response :=
  (with_health s false,
   {| status := 429;
      body := match v with
              | Legacy => Text "Too many requests, please try again later."
              | Synced => Json [("error",
                            JStr "Too many requests, please try again later.")]
              end |}).

(** [app.use(limiter)]. The counting belongs to express-rate-limit;
    [hits] is the number of requests it has counted for the client in the
    current window, this one included. The library calls [handler] when
    that number exceeds [max] and passes the request on otherwise. *)
Definition limiter (v : variant) (hits : Z) (s : server)
  : server * option response :=
  if (max v <? hits)%Z
  then let '(s', r) := limit_handler v s in (s', Some r)
  else (s, None).

(** [app.get('/health', ...)]; [iso] is [new Date().toISOString()], which
    only part_000 reports. *)
Definition health (v : variant) (iso : string) (s : server) : response :=
  let label := JStr (if isHealthy s then "healthy" else "unhealthy") in
  {| status := if isHealthy s then 200 else 503;
     body := Json match v with
                  | Legacy => [("status", label)]
                  | Synced => [("status", label); ("timestamp", JStr iso)]
                  end |}.

(** A [GET /health] through the middleware stack. *)
Definition get_health (v : variant) (hits : Z) (iso : string) (s : server)
  : server * response :=
  match limiter v hits s with
  | (s', Some r) => (s', r)
  | (s', None) => (s', health v iso s')
  end.

End Health.

(** ** Registration supervisor ([initWebhook], part_000 lines 64-80,
       index.js lines 62-78; the two are the same text) *)

Module Supervisor.

(** How the platform answers one [setWebhook] call. *)
Inductive answer : Type :=
| Accepted
| Rejected.

(** The health flag together with a log of what the supervisor did:
    the [retries] argument of every call that issued the request, the
    delay of every [setTimeout], and whether the give-up branch of
    line 77 was reached. *)
Record t : Type := mk {
  healthy : bool;
  attempts : list Z;
  scheduled : list Z;
  gave_up : bool
}.

(** The process starts with [isHealthy = true]; [initWebhook()] is the
    first writer that can run. *)
Definition start : t :=
  {| healthy := true; attempts := []; scheduled := []; gave_up := false |}.

(** Defaults of lines 17-18. *)
Definition DEFAULT_RETRY_TIMEOUT : Z := 5000.
Definition DEFAULT_MAX_RETRIES : Z := 5.

Section Retry.

Variable RETRY_TIMEOUT : Z.
Variable MAX_RETRIES : Z.

(** [initWebhook(retries)]. [answers] scripts the platform: its head
    is the outcome of the request this call issues, its tail serves the
    calls made by the retry timers. When the script is empty the
    request has been issued and is still outstanding. The retry timer
    is the only thing that calls [initWebhook] again, once, with
    [retries + 1], so its firing is the recursive call. *)
Fixpoint initWebhook (answers : list answer) (retries : Z) (st : t) : t :=
  let issued := {| healthy := healthy st;
                   attempts := attempts st ++ [retries];
                   scheduled := scheduled st;
                   gave_up := gave_up st |} in
  match answers with
  | [] => issued
  | Accepted :: _ =>
      {| healthy := true;
         attempts := attempts issued;
         scheduled := scheduled issued;
         gave_up := gave_up issued |}
  | Rejected :: later =>
      if retries <? MAX_RETRIES then
        initWebhook later (retries + 1)
                    {| healthy := false;
                       attempts := attempts issued;
                       scheduled := scheduled issued ++ [RETRY_TIMEOUT];
                       gave_up := gave_up issued |}
      else
        {| healthy := false;
           attempts := attempts issued;
           scheduled := scheduled issued;
           gave_up := true |}
  end.

(** [await initWebhook()] of the listen callback. *)
Definition run (answers : list answer) : t := initWebhook answers 0 start.

End Retry.

Definition attempt_count (st : t) : nat := List.length (attempts st).

(** [start, start + 1, ...], [n] numbers: the [retries] arguments of [n]
    successive calls. *)
Fixpoint counting_from (start : Z) (n : nat) : list Z :=
  match n with
  | O => []
  | S n' => start :: counting_from (start + 1) n'
  end.

End Supervisor.

(** ** The inbound webhook route ([app.post(URI, ...)], index.js lines
       122-136, part_000 lines 368-376) *)

Module Webhook.

Local Open Scope string_scope.

(** A pending [setTimeout] whose callback sends a response. *)
Record timer : Type := mkTimer {
  timer_id : nat;
  due : Z;
  callback : response
}.

(** The part of the event loop the route touches: the clock, the timer
    queue, and the responses written to [res] so far. *)
Record loop : Type := mkLoop {
  now : Z;
  timers : list timer;
  next_id : nat;
  sent : list response
}.

Definition idle (clock : Z) : loop :=
  {| now := clock; timers := []; next_id := 1%nat; sent := [] |}.

Definition setTimeout (r : response) (delay : Z) (l : loop) : nat * loop :=
  (next_id l,
   {| now := now l;
      timers := timers l ++ [{| timer_id := next_id l; due := now l + delay;
                                 callback := r |}];
      next_id := S (next_id l);
      sent := sent l |}).

Definition clearTimeout (id : nat) (l : loop) : loop :=
  {| now := now l;
     timers := filter (fun t => negb (Nat.eqb (timer_id t) id)) (timers l);
     next_id := next_id l;
     sent := sent l |}.

Definition send (r : response) (l : loop) : loop :=
  {| now := now l; timers := timers l; next_id := next_id l;
     sent := sent l ++ [r] |}.

(** Time that passes inside a callback: no timer runs meanwhile. *)
Definition elapse (ms : Z) (l : loop) : loop :=
  {| now := now l + ms; timers := timers l; next_id := next_id l;
     sent := sent l |}.

(** Between callbacks the loop runs the timers that are due. *)
Definition run_until (clock : Z) (l : loop) : loop :=
  {| now := Z.max clock (now l);
     timers := filter (fun t => negb (due t <=? clock)%Z) (timers l);
     next_id := next_id l;
     sent := sent l ++ map callback (filter (fun t => (due t <=? clock)%Z) (timers l)) |}.

(** [bot.handleUpdate(req.body)] seen from the route: whether the call
    itself throws, how long the call keeps the thread, and how long
    the processing of the update takes until the promise it returns has
    settled. The route does not await that promise. *)
Record dispatch : Type := mkDispatch {
  throws : bool;
  call_ms : Z;
  processing_ms : Z
}.

Definition TIMEOUT : Z := 10000.

Definition ok_text (v : variant) : string :=
  match v with Legacy => "Received Telegram webhook" | Synced => "OK" end.

(** The route, one synchronous callback. In index.js the timer is armed
    first and disarmed in the [finally]; part_000 has no timer. *)
Definition route (v : variant) (d : dispatch) (l : loop) : loop :=
  let answer l :=
    if throws d
    then send {| status := 500; body := Text "Webhook processing error" |} l
    else send {| status := 200; body := Text (ok_text v) |} l in
  match v with
  | Legacy =>
      let '(timeout, l1) :=
        setTimeout {| status := 504; body := Text "Webhook processing timeout" |}
                   TIMEOUT l in
      clearTimeout timeout (answer (elapse (call_ms d) l1))
  | Synced => answer (elapse (call_ms d) l)
  end.

(** Everything the inbound caller has received by time [clock] for a
    request that arrived at time [arrival]. *)
Definition responses (v : variant) (d : dispatch) (arrival clock : Z)
  : list response :=
  sent (run_until clock (route v d (idle arrival))).

End Webhook.

(** ** The server as a transition system *)

Module Server.

(** The events that can touch the cache of part_000: the three
    notification routes, the two administrative routes, a rejection by
    the rate limiter and a tick of the sweep timer. The error middleware,
    the keep-alive callback and [initWebhook] write the health flag only;
    they are in [Http], [KeepAlive] and [Supervisor]. *)
Inductive event : Type :=
| Welcome (w : world) (body : list (string * jsval))
| Referral (w : world) (body : list (string * jsval))
| Direct (w : world) (body : list (string * jsval))
| ClearCache
| Stats
| RateLimited (hits : Z)
| SweepTick (clock : Z).

Definition apply (s : server) (e : event) : server :=
  match e with
  | Welcome w body => after (Handlers.sendWelcomeMessage w body s)
  | Referral w body => after (Handlers.sendReferralNotification w body s)
  | Direct w body => after (Handlers.sendBotMessage w body s)
  | ClearCache => after (Handlers.clearMessageCache s)
  | Stats => after (Handlers.messageCacheStats s)
  | RateLimited hits => fst (Health.limiter Synced hits s)
  | SweepTick clock => Cache.sweep_tick clock s
  end.

Definition run (events : list event) (s : server) : server :=
  fold_left apply events s.

End Server.

(** ** Concrete requests used as test points *)

Module Samples.

Local Open Scope string_scope.

(** [{"description": "Forbidden: bot was blocked by the user"}], the
    platform's 403 answer, as axios reports it. *)
Definition blocked_error : axios_error :=
  {| response_data :=
       JObj [("ok", JBool false); ("error_code", JNum 403);
             ("description", JStr "Forbidden: bot was blocked by the user")];
     message := "Request failed with status code 403" |}.

(** A network failure: no response at all. *)
Definition network_error : axios_error :=
  {| response_data := JUndefined; message := "connect ETIMEDOUT" |}.

Definition welcome_body : list (string * jsval) :=
  [("userId", JNum 42); ("username", JStr "rex"); ("firstName", JStr "Rex")].

Definition referral_body : list (string * jsval) :=
  [("referrerId", JNum 7);
   ("newUser", JObj [("id", JNum 9); ("username", JStr "bob")])].

Definition direct_body : list (string * jsval) :=
  [("telegramId", JNum 42); ("message", JStr "hello")].

(** A server whose cache holds one welcome record and one referral
    record, both written at clock reading 1000. *)
Definition seeded : server :=
  {| isHealthy := true;
     sentMessages := [("welcome_42", 1000); ("referral_7_9", 1000)] |}.

(** A request that arrives exactly one welcome window after 1000 and
    that the platform would deliver. *)
Definition a_day_later : world :=
  {| clock_at_check := 1000 + Cache.WELCOME_WINDOW;
     platform := Delivered;
     clock_at_mark := 1000 + Cache.WELCOME_WINDOW + 120 |}.

(** A request whose recipient has blocked the bot. *)
Definition blocked_world : world :=
  {| clock_at_check := 5000; platform := Failed blocked_error;
     clock_at_mark := 5200 |}.

(** An update whose processing takes 15 seconds; the call to
    [handleUpdate] returns its promise after 2 ms. *)
Definition slow_update : Webhook.dispatch :=
  {| Webhook.throws := false; Webhook.call_ms := 2;
     Webhook.processing_ms := 15000 |}.

End Samples.

(** ** The keep-alive probe (part_000 lines 423-431, index.js lines
       163-171) *)

Module KeepAlive.

(** What [axios.get(`${SERVER_URL}/health`)] meets: an HTTP answer with a
    status code, or no answer at all. *)
Inductive probe : Type :=
| Answered (code : Z)
| Unreachable.

(** axios resolves the promise for a status in [200, 300) and rejects it
    for every other status (its default [validateStatus]). *)
Definition resolves (code : Z) : bool := (200 <=? code) && (code <? 300).

(** The interval callback: [.then(response => isHealthy = response.status
    === 200)] and [.catch(() => isHealthy = false)]. *)
Definition tick (p : probe) (s : server) : server :=
  match p with
  | Answered code =>
      if resolves code then with_health s (code =? 200) else with_health s false
  | Unreachable => with_health s false
  end.

End KeepAlive.

(** ** The bot commands (part_000 lines 89-129 and 279-308, index.js lines
       84-119) *)

Module Bot.

Local Open Scope string_scope.

Definition web_link : string := "https://megadogs1990.netlify.app".

(** The link behind the "start" button. [startPayload] is the string
    Telegraf hands to [bot.start] (empty when [/start] came without one).
    index.js always appends it; part_000 appends it only when it is a
    referral payload, [startPayload && startPayload.startsWith('ref_')]. *)
Definition urlSent (v : variant) (startPayload : string) : string :=
  match v with
  | Legacy => web_link ++ "?ref=" ++ startPayload
  | Synced =>
      if negb (String.eqb startPayload "") && String.prefix "ref_" startPayload
      then web_link ++ "?ref=" ++ startPayload
      else web_link
  end.

(** The [start] parameter of the link of line 282, which the platform
    hands back as the start payload of whoever opens the link. *)
Definition referralPayload (userId : jsval) : string :=
  "ref_" ++ toString userId.

(** [`https://t.me/${ctx.botInfo.username}?start=ref_${userId}`] *)
Definition referralLink (botUsername : string) (userId : jsval) : string :=
  "https://t.me/" ++ botUsername ++ "?start=" ++ referralPayload userId.

(** The test of [bot.start] for a blocked recipient, an exact comparison:
    [error.response?.data?.description === 'Forbidden: bot was blocked by
    the user']. The record [axios_error] stands for whatever error object
    reaches the catch block, read the way the source reads it: an error
    that has no [response.data] has [response_data = JUndefined]. *)
Definition blocked_exactly (e : axios_error) : bool :=
  match description e with
  | JStr d => String.eqb d "Forbidden: bot was blocked by the user"
  | _ => false
  end.

(** What the retrying [sendMessage] of index.js did: the [retries]
    argument of every call that tried [replyWithPhoto], and the delay of
    every retry timer. *)
Record start_log : Type := mkStartLog {
  photos : list Z;
  rescheduled : list Z
}.

Definition no_photo : start_log := {| photos := []; rescheduled := [] |}.

Section Retry.

Variable RETRY_TIMEOUT : Z.
Variable MAX_RETRIES : Z.

(** [sendMessage(retries)], index.js lines 90-116. [answers] scripts the
    platform as for [initWebhook]; a failure is the error object that
    reaches the catch block, as far as line 106 reads it. An error the
    test of line 106 recognises ends the loop at once, any other failure
    is retried while [retries < MAX_RETRIES]. *)
Fixpoint sendMessage (answers : list upstream) (retries : Z) (l : start_log)
  : start_log :=
  let tried := {| photos := photos l ++ [retries];
                  rescheduled := rescheduled l |} in
  match answers with
  | [] => tried
  | Delivered :: _ => tried
  | Failed e :: later =>
      if blocked_exactly e then tried
      else if (retries <? MAX_RETRIES)%Z then
        sendMessage later (retries + 1)
                    {| photos := photos tried;
                       rescheduled := rescheduled tried ++ [RETRY_TIMEOUT] |}
      else tried
  end.

End Retry.

End Bot.

(** ** Predicates on the cache and on the events *)

Module Shape.

(** A key one of the two notification routes can have written. *)
Definition notification_key (k : string) : bool :=
  String.prefix "welcome_" k || String.prefix "referral_" k.

(** The request behind the event read a positive clock when it wrote. *)
Definition clock_ok (e : Server.event) : Prop :=
  match e with
  | Server.Welcome w _ | Server.Referral w _ | Server.Direct w _ =>
      Cache.clock_reading (clock_at_mark w)
  | _ => True
  end.

(** [hits] did not exceed the limit of part_000. *)
Definition within_limit (e : Server.event) : Prop :=
  match e with
  | Server.RateLimited hits => hits <= Health.max Synced
  | _ => True
  end.

End Shape.

(** ** The inputs on which a template literal or the blocked test throws *)

Module Inputs.

Local Open Scope string_scope.

(** Whether [ToString], as a template literal [`${v}`] applies it,
    returns, and returns what [toString] computes. A parsed JSON object
    inherits [Object.prototype.toString] unless it has an own property
    ["toString"]; that one cannot be callable in JSON, the inherited
    [valueOf] returns the object itself, and the conversion ends in a
    TypeError. An array converts its items. An integer up to 2^53 in
    absolute value is a JavaScript number and prints in decimal. *)
Fixpoint printable (v : jsval) : bool :=
  match v with
  | JNum n => (Z.abs n <=? 2 ^ 53)%Z
  | JArr items =>
      (fix all (l : list jsval) : bool :=
         match l with
         | [] => true
         | x :: rest => printable x && all rest
         end) items
  | JObj fields => negb (existsb (fun kv => String.eqb (fst kv) "toString") fields)
  | _ => true
  end.

(** A description the platform sends, or none: a string, [undefined] or
    [null]. *)
Definition text_or_absent (d : jsval) : bool :=
  match d with
  | JUndefined | JNull | JStr _ => true
  | _ => false
  end.

(** The platform delivered, or failed with such a description. *)
Definition platform_ok (w : world) : Prop :=
  match platform w with
  | Delivered => True
  | Failed e => text_or_absent (description e) = true
  end.

(** [error.response?.data?.description?.includes('bot was blocked')] of
    lines 189, 261 and 331 as the source evaluates it, for every
    description. [?.] stops at [undefined] and [null]; a string searches
    for the substring; an array looks for an item that is this very
    string; a number, a boolean or an object has no callable [includes],
    and the call raises a TypeError inside the catch block ([None]). *)
Definition blocked_branch (e : axios_error) : option bool :=
  match description e with
  | JUndefined | JNull => Some false
  | JStr d => Some (includes "bot was blocked" d)
  | JArr items =>
      Some (existsb (fun x => match x with
                              | JStr item => String.eqb item "bot was blocked"
                              | _ => false
                              end) items)
  | JBool _ | JNum _ | JObj _ => None
  end.

End Inputs.

(** ** Every inbound request that can write the health flag *)

Module Http.

Local Open Scope string_scope.

(** The error-handling middleware (part_000 lines 49-53, index.js lines
    50-54). It is registered after the rate limiter and the JSON body
    parsers and before the routes, so it receives the errors those pass on
    (a malformed JSON body, for one) and none of the routes'. *)
Definition error_middleware (v : variant) (s : server) : server * response :=
  (with_health s false,
   {| status := 500;
      body := match v with
              | Legacy => Text "Internal Server Error"
              | Synced => Json [("error", JStr "Internal Server Error")]
              end |}).

(** A request that reaches one of the routes of [Server.event] or the
    limiter's handler, or a sweep tick; a request that ends in the error
    middleware; a request to any other route ([/health], [/], [/webhook],
    the webhook URI), none of which assigns [isHealthy] or touches
    [sentMessages]. *)
Inductive event : Type :=
| Routed (e : Server.event)
| MiddlewareError
| Elsewhere.

Definition apply (s : server) (e : event) : server :=
  match e with
  | Routed e' => Server.apply s e'
  | MiddlewareError => fst (error_middleware Synced s)
  | Elsewhere => s
  end.

Definition run (events : list event) (s : server) : server :=
  fold_left apply events s.

(** The request was neither over the rate limit nor stopped by the error
    middleware. *)
Definition quiet (e : event) : Prop :=
  match e with
  | Routed e' => Shape.within_limit e'
  | MiddlewareError => False
  | Elsewhere => True
  end.

End Http.

(** * Properties *)

Local Open Scope string_scope.
Local Open Scope list_scope.
Local Open Scope Z_scope.

(** ** The definitions on concrete inputs *)

Example toString_samples :
  toString (JNum 42) = "42" /\
  toString (JNum (-7)) = "-7" /\
  toString (JArr [JNum 1; JNull; JStr "a"]) = "1,,a" /\
  Handlers.notificationKey (JNum 7) (JObj [("id", JNum 9)]) = "referral_7_9" /\
  Handlers.notificationKey (JStr "7") (JStr "bob") = "referral_7_undefined".
Proof. repeat split; reflexivity. Qed.

Example includes_samples :
  includes "bot was blocked" "Forbidden: bot was blocked by the user" = true /\
  includes "bot was blocked" "Bad Request: chat not found" = false /\
  bot_was_blocked Samples.blocked_error = true /\
  bot_was_blocked Samples.network_error = false.
Proof. repeat split; reflexivity. Qed.

Example map_samples :
  JSMap.set "b" 5 [("a", 1); ("b", 2); ("c", 3)] = [("a", 1); ("b", 5); ("c", 3)] /\
  JSMap.set "d" 4 [("a", 1); ("b", 2)] = [("a", 1); ("b", 2); ("d", 4)] /\
  JSMap.delete "a" [("a", 1); ("b", 2)] = [("b", 2)] /\
  JSMap.get "c" [("a", 1); ("b", 2)] = None.
Proof. repeat split; reflexivity. Qed.

(** The scenario of the specification: the same welcome request twice
    within a day. The first one is sent and recorded, the second one is
    answered [alreadySent] and sends nothing. *)
Example duplicate_welcome_suppressed :
  let first := Handlers.sendWelcomeMessage
                 {| clock_at_check := 1700000000000; platform := Delivered;
                    clock_at_mark := 1700000000150 |}
                 Samples.welcome_body initial_server in
  let second := Handlers.sendWelcomeMessage
                  {| clock_at_check := 1700000060000; platform := Delivered;
                     clock_at_mark := 1700000060150 |}
                  Samples.welcome_body (after first) in
  sends first = [{| chat_id := JNum 42; parse_mode := "Markdown" |}] /\
  sentMessages (after first) = [("welcome_42", 1700000000150)] /\
  sends second = [] /\
  outcome second
  = Responded {| status := 200;
                 body := Json [("success", JBool true);
                               ("message", JStr "Welcome message already sent recently");
                               ("alreadySent", JBool true)] |} /\
  after second = after first.
Proof. repeat split; reflexivity. Qed.

(** The truthiness test of line 145 at its boundary: a record whose
    timestamp is the number 0 is read as a missing record. *)
Example zero_timestamp_reads_as_missing :
  Cache.sentRecently "welcome_42" Cache.WELCOME_WINDOW 5
                     (Cache.markSent "welcome_42" 0 []) = false /\
  Cache.sentRecently "welcome_42" Cache.WELCOME_WINDOW 6
                     (Cache.markSent "welcome_42" 1 []) = true.
Proof. split; reflexivity. Qed.

Example sweep_sample :
  Cache.sweep (8 * 24 * 60 * 60 * 1000)
    [("welcome_1", 5); ("referral_1_2", 2 * 24 * 60 * 60 * 1000); ("welcome_3", 7)]
  = ([("referral_1_2", 2 * 24 * 60 * 60 * 1000)], 2).
Proof. reflexivity. Qed.

Example registration_samples :
  Supervisor.run 5000 5 [Supervisor.Rejected; Supervisor.Rejected; Supervisor.Accepted]
  = {| Supervisor.healthy := true; Supervisor.attempts := [0; 1; 2];
       Supervisor.scheduled := [5000; 5000]; Supervisor.gave_up := false |} /\
  Supervisor.run 5000 2 (repeat Supervisor.Rejected 10)
  = {| Supervisor.healthy := false; Supervisor.attempts := [0; 1; 2];
       Supervisor.scheduled := [5000; 5000]; Supervisor.gave_up := true |}.
Proof. split; reflexivity. Qed.

(** ** Facts about the map *)

Section MapFacts.

Implicit Types (k : string) (v : Z) (m : JSMap.t).

Lemma get_set_same k v m : JSMap.get k (JSMap.set k v m) = Some v.
Proof.
  induction m as [|[k' v'] m IH]; simpl.
  - now rewrite String.eqb_refl.
  - destruct (String.eqb k k') eqn:E; simpl.
    + now rewrite String.eqb_refl.
    + now rewrite E.
Qed.

Lemma get_set_other k k' v m :
  k <> k' -> JSMap.get k' (JSMap.set k v m) = JSMap.get k' m.
Proof.
  intros Hne. induction m as [|[k0 v0] m IH]; simpl.
  - destruct (String.eqb k' k) eqn:E; [|reflexivity].
    apply String.eqb_eq in E. congruence.
  - destruct (String.eqb k k0) eqn:E; simpl.
    + apply String.eqb_eq in E. subst k0.
      destruct (String.eqb k' k) eqn:E'; [|reflexivity].
      apply String.eqb_eq in E'. congruence.
    + now rewrite IH.
Qed.

Lemma get_none_notin k m : JSMap.get k m = None <-> ~ In k (JSMap.keys m).
Proof.
  induction m as [|[k' v'] m IH]; simpl.
  - tauto.
  - destruct (String.eqb k k') eqn:E.
    + apply String.eqb_eq in E. subst. split; [discriminate | tauto].
    + apply String.eqb_neq in E. rewrite IH. split.
      * intros H [H' | H']; [congruence | tauto].
      * tauto.
Qed.

Lemma keys_app m1 m2 : JSMap.keys (m1 ++ m2) = JSMap.keys m1 ++ JSMap.keys m2.
Proof. apply map_app. Qed.

Lemma delete_skips_prefix k v kept rest :
  ~ In k (JSMap.keys kept) ->
  JSMap.delete k (kept ++ (k, v) :: rest) = kept ++ rest.
Proof.
  induction kept as [|[k' v'] kept IH]; simpl; intros Hnot.
  - now rewrite String.eqb_refl.
  - destruct (String.eqb k k') eqn:E.
    + apply String.eqb_eq in E. subst. tauto.
    + rewrite IH; tauto.
Qed.

Lemma wf_set k v m : JSMap.wf m -> JSMap.wf (JSMap.set k v m).
Proof.
  unfold JSMap.wf.
  assert (Hkeys : forall m, ~ In k (JSMap.keys m) ->
              JSMap.keys (JSMap.set k v m) = JSMap.keys m ++ [k]).
  { clear. induction m as [|[k' v'] m IH]; simpl; intros Hnot; [reflexivity|].
    destruct (String.eqb k k') eqn:E.
    - apply String.eqb_eq in E. subst. tauto.
    - simpl. rewrite IH; tauto. }
  assert (Hin : forall m, In k (JSMap.keys m) ->
              JSMap.keys (JSMap.set k v m) = JSMap.keys m).
  { clear. induction m as [|[k' v'] m IH]; simpl; intros Hk; [tauto|].
    destruct (String.eqb k k') eqn:E.
    - apply String.eqb_eq in E. now subst.
    - simpl. apply String.eqb_neq in E.
      rewrite IH; [reflexivity|]. destruct Hk; congruence. }
  intros Hwf.
  destruct (in_dec string_dec k (JSMap.keys m)) as [Hk | Hk].
  - now rewrite Hin.
  - rewrite Hkeys by assumption.
    apply NoDup_rev in Hwf.
    rewrite <- (rev_involutive (JSMap.keys m ++ [k])).
    apply NoDup_rev. rewrite rev_app_distr. simpl.
    constructor; [|assumption].
    now rewrite <- in_rev.
Qed.

End MapFacts.

(** ** The sweep as a filter *)

Section SweepFacts.

Variable cutoff : Z.

Let fresh := Cache.fresh cutoff.
Let stale := Cache.stale cutoff.

Lemma sweep_fold (l kept : JSMap.t) (count : Z) :
  JSMap.wf (kept ++ l) ->
  fold_left (Cache.sweep_entry cutoff) l (kept ++ l, count)
  = (kept ++ filter fresh l, count + Z.of_nat (List.length (filter stale l))).
Proof.
  revert kept count.
  induction l as [|[k v] l IH]; intros kept count Hwf.
  - simpl. f_equal. lia.
  - unfold JSMap.wf in Hwf. rewrite keys_app in Hwf. simpl in Hwf.
    pose proof (NoDup_remove_1 _ _ _ Hwf) as Hrest.
    pose proof (NoDup_remove_2 _ _ _ Hwf) as Hk.
    simpl fold_left. unfold Cache.sweep_entry at 1.
    unfold fresh, stale, Cache.fresh, Cache.stale in *. simpl filter. simpl snd.
    destruct (v <? cutoff) eqn:E; simpl negb; cbv iota.
    + rewrite delete_skips_prefix
        by (intro Hin; apply Hk, in_or_app; now left).
      rewrite IH by (unfold JSMap.wf; now rewrite keys_app).
      f_equal. simpl List.length. lia.
    + change (kept ++ (k, v) :: l) with (kept ++ [(k, v)] ++ l).
      rewrite app_assoc.
      rewrite IH.
      * now rewrite <- app_assoc.
      * unfold JSMap.wf. rewrite <- app_assoc, keys_app. exact Hwf.
Qed.

Lemma get_filter_fresh (k : string) (m : JSMap.t) :
  JSMap.wf m ->
  JSMap.get k (filter fresh m)
  = match JSMap.get k m with
    | Some t => if t <? cutoff then None else Some t
    | None => None
    end.
Proof.
  unfold fresh, Cache.fresh, Cache.stale.
  induction m as [|[k' v'] m IH]; intros Hwf; [reflexivity|].
  inversion Hwf as [|? ? Hnot Hrest]; subst.
  simpl.
  destruct (String.eqb k k') eqn:E.
  - apply String.eqb_eq in E. subst k'.
    destruct (v' <? cutoff) eqn:Ev; simpl.
    + apply get_none_notin. intro Hin. apply Hnot.
      unfold JSMap.keys in *. rewrite in_map_iff in *.
      destruct Hin as [e [He Hin]]. exists e. split; [assumption|].
      now apply filter_In in Hin.
    + now rewrite String.eqb_refl.
  - destruct (v' <? cutoff) eqn:Ev; simpl.
    + now apply IH.
    + rewrite E. now apply IH.
Qed.

End SweepFacts.

(** ** The de-duplication test and the cache write *)

Lemma shouldSend_markSent_inside :
  forall (K : string) (W t q : Z) (m : JSMap.t),
    t <> 0 -> t <= q < t + W ->
    Cache.shouldSend K W q (Cache.markSent K t m) = false.
Proof.
  intros K W t q m Ht Hq.
  unfold Cache.shouldSend, Cache.sentRecently, Cache.markSent.
  rewrite get_set_same.
  apply Z.eqb_neq in Ht. rewrite Ht. simpl.
  apply negb_false_iff, Z.ltb_lt. lia.
Qed.

Lemma shouldSend_markSent_outside :
  forall (K : string) (W t q : Z) (m : JSMap.t),
    t + W <= q ->
    Cache.shouldSend K W q (Cache.markSent K t m) = true.
Proof.
  intros K W t q m Hq.
  unfold Cache.shouldSend, Cache.sentRecently, Cache.markSent.
  rewrite get_set_same.
  apply negb_true_iff, andb_false_iff. right. apply Z.ltb_ge. lia.
Qed.

Lemma shouldSend_no_record :
  forall (K : string) (W q : Z) (m : JSMap.t),
    JSMap.get K m = None -> Cache.shouldSend K W q m = true.
Proof.
  intros K W q m Hnone.
  unfold Cache.shouldSend, Cache.sentRecently. now rewrite Hnone.
Qed.

(** C3. For every key K, window W and clock reading t: after
    [markSent K t], [shouldSend K W] is false at every query time in
    [t, t+W) and true at every query time from t+W on; and [shouldSend] is
    true whenever the map has no record for K. (A clock reading is
    positive; line 145 tests [lastSent] for truthiness and would take a
    stored 0 for a missing record.) The welcome handler decides with this
    test, at the 24 hour window, and writes with [markSent]. *)
Theorem C3_shouldSend_after_markSent :
  forall (K : string) (W t : Z) (m : JSMap.t),
    Cache.clock_reading t ->
    (forall q, t <= q < t + W ->
               Cache.shouldSend K W q (Cache.markSent K t m) = false) /\
    (forall q, t + W <= q ->
               Cache.shouldSend K W q (Cache.markSent K t m) = true) /\
    (forall q m', JSMap.get K m' = None -> Cache.shouldSend K W q m' = true).
Proof.
  intros K W t m Ht. unfold Cache.clock_reading in Ht.
  split; [|split].
  - intros q Hq. apply shouldSend_markSent_inside; [lia | exact Hq].
  - intros q Hq. now apply shouldSend_markSent_outside.
  - intros q m' Hnone. now apply shouldSend_no_record.
Qed.

Lemma C3_shouldSend_after_markSent_witness :
  Cache.clock_reading 1700000000000 /\
  Cache.shouldSend "welcome_42" Cache.WELCOME_WINDOW (1700000000000 + 5)
                   (Cache.markSent "welcome_42" 1700000000000 []) = false.
Proof.
  split; [reflexivity|].
  apply (C3_shouldSend_after_markSent "welcome_42" Cache.WELCOME_WINDOW
           1700000000000 []); [reflexivity|].
  unfold Cache.WELCOME_WINDOW. lia.
Defined.

(** ** The periodic sweep *)

Lemma wf_filter (f : string * Z -> bool) (m : JSMap.t) :
  JSMap.wf m -> JSMap.wf (filter f m).
Proof.
  unfold JSMap.wf, JSMap.keys.
  induction m as [|[k v] m IH]; intros Hwf; [constructor|].
  inversion Hwf as [|? ? Hnot Hrest]; subst.
  simpl. destruct (f (k, v)); [|now apply IH].
  simpl. constructor; [|now apply IH].
  intro Hin. apply Hnot. rewrite in_map_iff in *.
  destruct Hin as [e [He Hin]]. exists e. split; [assumption|].
  now apply filter_In in Hin.
Qed.

(** On a map, the loop is the filter that keeps the fresh entries, and it
    counts the stale ones. *)
Lemma sweep_with_as_filter (R now : Z) (m : JSMap.t) :
  JSMap.wf m ->
  Cache.sweep_with R now m
  = (filter (Cache.fresh (now - R)) m,
     Z.of_nat (List.length (filter (Cache.stale (now - R)) m))).
Proof.
  intros Hwf. unfold Cache.sweep_with, JSMap.entries.
  apply (sweep_fold (now - R) m [] 0 Hwf).
Qed.

(** C6. For every map and retention R, the sweep deletes exactly the
    records whose timestamp is strictly below [now - R]: a key is bound
    afterwards iff it was bound to a timestamp that is not below the
    cutoff, and then to the same timestamp; the surviving entries are the
    others, in their order; the counter is the number of deleted records,
    so the sizes add up. *)
Theorem C6_sweep_removes_exactly_stale :
  forall (R now : Z) (m : JSMap.t),
    JSMap.wf m ->
    let swept := fst (Cache.sweep_with R now m) in
    let clearedCount := snd (Cache.sweep_with R now m) in
    (forall k, JSMap.get k swept
               = match JSMap.get k m with
                 | Some t => if t <? now - R then None else Some t
                 | None => None
                 end) /\
    swept = filter (Cache.fresh (now - R)) m /\
    clearedCount = Z.of_nat (List.length (filter (Cache.stale (now - R)) m)) /\
    JSMap.size swept + clearedCount = JSMap.size m /\
    JSMap.wf swept.
Proof.
  intros R now m Hwf swept clearedCount.
  subst swept clearedCount.
  rewrite (sweep_with_as_filter R now m Hwf). simpl fst. simpl snd.
  repeat split.
  - intros k. now apply get_filter_fresh.
  - unfold JSMap.size.
    pose proof (filter_length (Cache.stale (now - R)) m) as Hlen.
    change (fun x => negb (Cache.stale (now - R) x))
      with (Cache.fresh (now - R)) in Hlen.
    lia.
  - now apply wf_filter.
Qed.

Lemma C6_sweep_removes_exactly_stale_witness :
  JSMap.wf [("welcome_1", 100); ("referral_1_2", 950); ("welcome_3", 899)] /\
  fst (Cache.sweep_with 100 1000
         [("welcome_1", 100); ("referral_1_2", 950); ("welcome_3", 899)])
  = [("referral_1_2", 950)].
Proof.
  assert (Hwf : JSMap.wf [("welcome_1", 100); ("referral_1_2", 950);
                          ("welcome_3", 899)]).
  { unfold JSMap.wf. simpl.
    repeat constructor; simpl; intuition discriminate. }
  split; [exact Hwf|].
  destruct (C6_sweep_removes_exactly_stale 100 1000 _ Hwf) as (_ & Heq & _).
  rewrite Heq. reflexivity.
Defined.

(** ** The representation invariant holds in every reachable state *)

Lemma apply_preserves_wf (s : server) (e : Server.event) :
  JSMap.wf (sentMessages s) -> JSMap.wf (sentMessages (Server.apply s e)).
Proof.
  intros Hwf.
  destruct e as [w body | w body | w body | | | hits | clock]; simpl.
  - unfold Handlers.sendWelcomeMessage.
    destruct (negb _); [exact Hwf|].
    destruct (Cache.sentRecently _ _ _ _); [exact Hwf|].
    destruct (platform w) as [|e].
    + simpl. now apply wf_set.
    + destruct (bot_was_blocked e); exact Hwf.
  - unfold Handlers.sendReferralNotification.
    destruct (_ || _); [exact Hwf|].
    destruct (JSMap.has _ _); [exact Hwf|].
    destruct (platform w) as [|e].
    + simpl. now apply wf_set.
    + destruct (bot_was_blocked e); exact Hwf.
  - unfold Handlers.sendBotMessage.
    destruct (_ || _); [exact Hwf|].
    destruct (platform w) as [|e]; [exact Hwf|].
    destruct (bot_was_blocked e); exact Hwf.
  - constructor.
  - exact Hwf.
  - unfold Health.limiter. destruct (_ <? _); exact Hwf.
  - unfold Cache.sweep, Cache.sweep_tick. simpl.
    unfold Cache.sweep.
    rewrite (sweep_with_as_filter Cache.RETENTION clock _ Hwf).
    now apply wf_filter.
Qed.

Lemma reachable_wf (events : list Server.event) :
  JSMap.wf (sentMessages (Server.run events initial_server)).
Proof.
  unfold Server.run.
  assert (Hgen : forall s, JSMap.wf (sentMessages s) ->
                           JSMap.wf (sentMessages (fold_left Server.apply events s))).
  { induction events as [|e events IH]; intros s Hs; [exact Hs|].
    simpl. apply IH. now apply apply_preserves_wf. }
  apply Hgen. constructor.
Qed.

(** ** Administrative operations *)

(** C9. Whatever the cache held, a clear followed by a stats request
    reports [totalEntries: 0] and an empty [entries] sample. *)
Theorem C9_clear_then_stats_reports_empty :
  forall s : server,
    let cleared := after (Handlers.clearMessageCache s) in
    sentMessages cleared = [] /\
    outcome (Handlers.messageCacheStats cleared)
    = Responded {| status := 200;
                   body := Json [("success"%string, JBool true);
                                 ("totalEntries"%string, JNum 0);
                                 ("entries"%string, JArr [])] |}.
Proof.
  intros s. split; reflexivity.
Qed.

(** ** Validation of the referral request *)

(** C7. A referral request whose body has no [referrerId], or no
    [newUser], is answered 400 with an error message; nothing is sent and
    the server state, the cache included, is what it was. *)
Theorem C7_referral_missing_field_rejected :
  forall (w : world) (body : list (string * jsval)) (s : server),
    lookup_field "referrerId" body = JUndefined \/
    lookup_field "newUser" body = JUndefined ->
    let r := Handlers.sendReferralNotification w body s in
    outcome r
    = Responded {| status := 400;
                   body := Json [("error"%string,
                            JStr "Referrer ID and new user data are required")] |} /\
    sends r = [] /\
    after r = s /\
    sentMessages (after r) = sentMessages s.
Proof.
  intros w body s Hmissing r. subst r.
  unfold Handlers.sendReferralNotification.
  assert (Hguard : negb (truthy (lookup_field "referrerId" body))
                   || negb (truthy (lookup_field "newUser" body)) = true).
  { destruct Hmissing as [H | H]; rewrite H; simpl.
    - reflexivity.
    - apply orb_true_r. }
  rewrite Hguard. repeat split.
Qed.

Lemma C7_referral_missing_field_rejected_witness :
  (lookup_field "referrerId" [("newUser"%string, JObj [("id"%string, JNum 9)])]
   = JUndefined \/
   lookup_field "newUser" [("newUser"%string, JObj [("id"%string, JNum 9)])]
   = JUndefined) /\
  sends (Handlers.sendReferralNotification
           {| clock_at_check := 10; platform := Delivered; clock_at_mark := 11 |}
           [("newUser"%string, JObj [("id"%string, JNum 9)])]
           initial_server) = [].
Proof.
  split; [left; reflexivity|].
  apply (C7_referral_missing_field_rejected
           {| clock_at_check := 10; platform := Delivered; clock_at_mark := 11 |}
           [("newUser"%string, JObj [("id"%string, JNum 9)])]
           initial_server).
  left; reflexivity.
Defined.

(** ** Rate limiting and the health flag *)

(** C8. Whenever the count of the limiter exceeds [max], the middleware
    answers 429 and the health flag is false afterwards (the cache is not
    touched); from then on the liveness route answers 503 "unhealthy", also
    when reached through the middleware by a client that is within its own
    limit. *)
Theorem C8_rate_limit_degrades_health :
  forall (v : variant) (hits : Z) (iso : string) (s : server),
    Health.max v < hits ->
    let limited := Health.limiter v hits s in
    (exists r, snd limited = Some r /\ status r = 429) /\
    isHealthy (fst limited) = false /\
    sentMessages (fst limited) = sentMessages s /\
    status (Health.health v iso (fst limited)) = 503 /\
    lookup_field "status"
      match body (Health.health v iso (fst limited)) with
      | Json fields => fields
      | Text _ => []
      end = JStr "unhealthy" /\
    (forall hits', hits' <= Health.max v ->
       Health.get_health v hits' iso (fst limited)
       = (fst limited, Health.health v iso (fst limited))).
Proof.
  intros v hits iso s Hover limited. subst limited.
  unfold Health.limiter.
  apply Z.ltb_lt in Hover. rewrite Hover. simpl.
  split; [eexists; split; reflexivity|].
  repeat split.
  - destruct v; reflexivity.
  - intros hits' Hunder. unfold Health.get_health, Health.limiter.
    assert (H : (Health.max v <? hits') = false) by (apply Z.ltb_ge; lia).
    now rewrite H.
Qed.

Lemma C8_rate_limit_degrades_health_witness :
  Health.max Synced < 101 /\
  isHealthy (fst (Health.limiter Synced 101 initial_server)) = false.
Proof.
  split; [reflexivity|].
  apply (C8_rate_limit_degrades_health Synced 101 "2026-01-01T00:00:00.000Z"
           initial_server).
  reflexivity.
Defined.

(** ** Failing sends and the cache *)

Lemma welcome_failed_send_keeps_state :
  forall (w : world) (body : list (string * jsval)) (s : server) (e : axios_error),
    platform w = Failed e ->
    after (Handlers.sendWelcomeMessage w body s) = s.
Proof.
  intros w body s e Hfail.
  unfold Handlers.sendWelcomeMessage. rewrite Hfail.
  destruct (negb (truthy (lookup_field "userId" body))); [reflexivity|].
  destruct (Cache.sentRecently _ _ _ _); [reflexivity|].
  destruct (bot_was_blocked e); reflexivity.
Qed.

Lemma referral_failed_send_keeps_state :
  forall (w : world) (body : list (string * jsval)) (s : server) (e : axios_error),
    platform w = Failed e ->
    after (Handlers.sendReferralNotification w body s) = s.
Proof.
  intros w body s e Hfail.
  unfold Handlers.sendReferralNotification. rewrite Hfail.
  destruct (negb (truthy (lookup_field "referrerId" body))
            || negb (truthy (lookup_field "newUser" body))); [reflexivity|].
  destruct (JSMap.has _ _); [reflexivity|].
  destruct (bot_was_blocked e); reflexivity.
Qed.

(** A handler that changed the cache had its send delivered. *)
Lemma cache_write_needs_delivery :
  forall (w : world) (body : list (string * jsval)) (s : server),
    (sentMessages (after (Handlers.sendWelcomeMessage w body s)) <> sentMessages s
     \/ sentMessages (after (Handlers.sendReferralNotification w body s))
        <> sentMessages s) ->
    platform w = Delivered.
Proof.
  intros w body s Hchanged.
  destruct (platform w) as [|e] eqn:Hp; [reflexivity|].
  rewrite (welcome_failed_send_keeps_state w body s e Hp) in Hchanged.
  rewrite (referral_failed_send_keeps_state w body s e Hp) in Hchanged.
  destruct Hchanged; congruence.
Qed.

(** C10. When the outbound send fails, for a blocked recipient as for any
    other upstream error, the welcome handler and the referral handler end
    with the server state, the cache included, exactly as they found it:
    the write of lines 176 and 248 sits after the [await] and is skipped by
    the exception. A later request for the same key therefore meets the
    same cache as if the failed attempt had not happened. *)
Theorem C10_failed_send_leaves_cache :
  forall (w : world) (body : list (string * jsval)) (s : server) (e : axios_error),
    platform w = Failed e ->
    after (Handlers.sendWelcomeMessage w body s) = s /\
    after (Handlers.sendReferralNotification w body s) = s /\
    sentMessages (after (Handlers.sendWelcomeMessage w body s)) = sentMessages s /\
    sentMessages (after (Handlers.sendReferralNotification w body s))
    = sentMessages s /\
    (forall later : world,
       Handlers.sendWelcomeMessage later body
         (after (Handlers.sendWelcomeMessage w body s))
       = Handlers.sendWelcomeMessage later body s) /\
    (forall later : world,
       Handlers.sendReferralNotification later body
         (after (Handlers.sendReferralNotification w body s))
       = Handlers.sendReferralNotification later body s).
Proof.
  intros w body s e Hfail.
  rewrite (welcome_failed_send_keeps_state w body s e Hfail).
  rewrite (referral_failed_send_keeps_state w body s e Hfail).
  repeat split.
Qed.

Lemma C10_failed_send_leaves_cache_witness :
  platform Samples.blocked_world = Failed Samples.blocked_error /\
  after (Handlers.sendReferralNotification Samples.blocked_world
           Samples.referral_body initial_server) = initial_server.
Proof.
  split; [reflexivity|].
  apply (C10_failed_send_leaves_cache Samples.blocked_world
           Samples.referral_body initial_server Samples.blocked_error).
  reflexivity.
Defined.

(** ** Suppression of repeated notifications *)

Lemma welcome_record_within_window :
  forall (w : world) (body : list (string * jsval)) (s : server) (t : Z),
    truthy (lookup_field "userId" body) = true ->
    JSMap.get ("welcome_" ++ toString (lookup_field "userId" body)) (sentMessages s)
    = Some t ->
    t <> 0 ->
    clock_at_check w - t < Cache.WELCOME_WINDOW ->
    Handlers.sendWelcomeMessage w body s
    = Handlers.reply s [] 200
        [("success", JBool true);
         ("message", JStr "Welcome message already sent recently");
         ("alreadySent", JBool true)].
Proof.
  intros w body s t Hid Hget Ht Hin.
  unfold Handlers.sendWelcomeMessage, Cache.sentRecently.
  rewrite Hid, Hget. simpl negb. cbv iota.
  apply Z.eqb_neq in Ht. apply Z.ltb_lt in Hin.
  now rewrite Ht, Hin.
Qed.

Lemma welcome_record_after_window :
  forall (w : world) (body : list (string * jsval)) (s : server) (t : Z),
    truthy (lookup_field "userId" body) = true ->
    JSMap.get ("welcome_" ++ toString (lookup_field "userId" body)) (sentMessages s)
    = Some t ->
    Cache.WELCOME_WINDOW <= clock_at_check w - t ->
    sends (Handlers.sendWelcomeMessage w body s)
    = [{| chat_id := lookup_field "userId" body; parse_mode := "Markdown" |}] /\
    (platform w = Delivered ->
     JSMap.get ("welcome_" ++ toString (lookup_field "userId" body))
               (sentMessages (after (Handlers.sendWelcomeMessage w body s)))
     = Some (clock_at_mark w)).
Proof.
  intros w body s t Hid Hget Hout.
  unfold Handlers.sendWelcomeMessage, Cache.sentRecently.
  rewrite Hid, Hget. simpl negb. cbv iota.
  apply Z.ltb_ge in Hout. rewrite Hout, andb_false_r.
  destruct (platform w) as [|e] eqn:Hp.
  - split; [reflexivity|]. intros _. simpl. apply get_set_same.
  - split; [destruct (bot_was_blocked e); reflexivity | discriminate].
Qed.

Lemma referral_record_suppresses :
  forall (w : world) (body : list (string * jsval)) (s : server) (t : Z),
    truthy (lookup_field "referrerId" body) = true ->
    truthy (lookup_field "newUser" body) = true ->
    JSMap.get (Handlers.notificationKey (lookup_field "referrerId" body)
                                        (lookup_field "newUser" body))
              (sentMessages s) = Some t ->
    Handlers.sendReferralNotification w body s
    = Handlers.reply s [] 200
        [("success", JBool true);
         ("message", JStr "Referral notification already sent");
         ("alreadySent", JBool true)].
Proof.
  intros w body s t Hid Hnew Hget.
  unfold Handlers.sendReferralNotification, JSMap.has.
  now rewrite Hid, Hnew, Hget.
Qed.

(** C1, as the code has it. Welcome keys: for a request whose [userId]
    converts to a string (line 143 builds the key from it) and whose key
    has a record written at a clock reading [tw], the record suppresses
    the request for exactly the 24 hour window: while [now - tw] is below
    the window the handler answers [alreadySent] without sending or
    touching the state, and from the end of the window on it sends again
    (the display name of line 153 converting to a string as well) and,
    when the platform delivers, rewrites the record with the new clock
    reading. Referral keys: a record suppresses every repeat request for
    as long as it is in the map, whatever the clock says, because line 218
    tests [sentMessages.has], not an age. The two halves are independent:
    neither needs the other kind of record in the cache. *)
Theorem C1_dedup_window_by_kind :
  (forall (w : world) (body : list (string * jsval)) (s : server) (tw : Z),
     truthy (lookup_field "userId" body) = true ->
     Inputs.printable (lookup_field "userId" body) = true ->
     JSMap.get ("welcome_" ++ toString (lookup_field "userId" body))
               (sentMessages s) = Some tw ->
     Cache.clock_reading tw ->
     (clock_at_check w - tw < Cache.WELCOME_WINDOW ->
      Handlers.sendWelcomeMessage w body s
      = Handlers.reply s [] 200
          [("success", JBool true);
           ("message", JStr "Welcome message already sent recently");
           ("alreadySent", JBool true)]) /\
     (Cache.WELCOME_WINDOW <= clock_at_check w - tw ->
      Inputs.printable (js_or (lookup_field "firstName" body)
                              (lookup_field "username" body)) = true ->
      sends (Handlers.sendWelcomeMessage w body s)
      = [{| chat_id := lookup_field "userId" body; parse_mode := "Markdown" |}] /\
      (platform w = Delivered ->
       JSMap.get ("welcome_" ++ toString (lookup_field "userId" body))
                 (sentMessages (after (Handlers.sendWelcomeMessage w body s)))
       = Some (clock_at_mark w)))) /\
  (forall (w : world) (body : list (string * jsval)) (s : server) (tr : Z),
     truthy (lookup_field "referrerId" body) = true ->
     truthy (lookup_field "newUser" body) = true ->
     Inputs.printable (lookup_field "referrerId" body) = true ->
     Inputs.printable (prop (lookup_field "newUser" body) "id") = true ->
     JSMap.get (Handlers.notificationKey (lookup_field "referrerId" body)
                                         (lookup_field "newUser" body))
               (sentMessages s) = Some tr ->
     Handlers.sendReferralNotification w body s
     = Handlers.reply s [] 200
         [("success", JBool true);
          ("message", JStr "Referral notification already sent");
          ("alreadySent", JBool true)]).
Proof.
  split.
  - intros w body s tw Hid _ Hget Htw.
    assert (Hnz : tw <> 0) by (unfold Cache.clock_reading in Htw; lia).
    split.
    + intros Hin. now apply welcome_record_within_window with (t := tw).
    + intros Hout _. now apply welcome_record_after_window with (t := tw).
  - intros w body s tr Hid Hnew _ _ Hget.
    now apply referral_record_suppresses with (t := tr).
Qed.

Lemma C1_dedup_window_by_kind_witness :
  (truthy (lookup_field "userId" Samples.welcome_body) = true /\
   Inputs.printable (lookup_field "userId" Samples.welcome_body) = true /\
   JSMap.get ("welcome_" ++ toString (lookup_field "userId" Samples.welcome_body))
             [("welcome_42", 1000)] = Some 1000 /\
   Cache.clock_reading 1000 /\
   5000 - 1000 < Cache.WELCOME_WINDOW) /\
  sends (Handlers.sendWelcomeMessage
           {| clock_at_check := 5000; platform := Delivered; clock_at_mark := 5100 |}
           Samples.welcome_body
           {| isHealthy := true; sentMessages := [("welcome_42", 1000)] |}) = [] /\
  sends (Handlers.sendReferralNotification Samples.a_day_later
           Samples.referral_body
           {| isHealthy := true; sentMessages := [("referral_7_9", 1000)] |}) = [].
Proof.
  assert (H1 : truthy (lookup_field "userId" Samples.welcome_body) = true)
    by reflexivity.
  assert (H2 : Inputs.printable (lookup_field "userId" Samples.welcome_body) = true)
    by reflexivity.
  assert (H3 : JSMap.get
                 ("welcome_" ++ toString (lookup_field "userId" Samples.welcome_body))
                 [("welcome_42", 1000)] = Some 1000) by reflexivity.
  assert (H4 : Cache.clock_reading 1000) by reflexivity.
  assert (H5 : 5000 - 1000 < Cache.WELCOME_WINDOW) by reflexivity.
  split; [repeat split; assumption|].
  destruct C1_dedup_window_by_kind as (Hwelcome & Hreferral).
  split.
  - destruct (Hwelcome
                {| clock_at_check := 5000; platform := Delivered;
                   clock_at_mark := 5100 |}
                Samples.welcome_body
                {| isHealthy := true; sentMessages := [("welcome_42", 1000)] |}
                1000 H1 H2 H3 H4) as (Hin & _).
    rewrite (Hin H5). reflexivity.
  - rewrite (Hreferral Samples.a_day_later Samples.referral_body
               {| isHealthy := true; sentMessages := [("referral_7_9", 1000)] |}
               1000 eq_refl eq_refl eq_refl eq_refl eq_refl).
    reflexivity.
Defined.

(** C1 as stated fails for referral keys. The record for
    ["referral_7_9"] was written at 1000; the same referral is requested
    again when the 24 hours have fully elapsed, and the platform would
    deliver. Nothing is sent and the record keeps its old timestamp, while
    the welcome request of the same instant is sent again. *)
Lemma C1_referral_repeat_after_window_counterexample :
  Cache.WELCOME_WINDOW <= clock_at_check Samples.a_day_later - 1000 /\
  platform Samples.a_day_later = Delivered /\
  JSMap.get "referral_7_9" (sentMessages Samples.seeded) = Some 1000 /\
  sends (Handlers.sendReferralNotification Samples.a_day_later
           Samples.referral_body Samples.seeded) = [] /\
  JSMap.get "referral_7_9"
    (sentMessages (after (Handlers.sendReferralNotification Samples.a_day_later
                            Samples.referral_body Samples.seeded)))
  = Some 1000 /\
  Some 1000 <> Some (clock_at_mark Samples.a_day_later) /\
  sends (Handlers.sendWelcomeMessage Samples.a_day_later
           Samples.welcome_body Samples.seeded)
  = [{| chat_id := JNum 42; parse_mode := "Markdown" |}].
Proof.
  split; [vm_compute; discriminate|].
  split; [reflexivity|].
  split; [reflexivity|].
  split; [reflexivity|].
  split; [reflexivity|].
  split; [vm_compute; discriminate | reflexivity].
Qed.

(** ** Blocked recipients *)



(** ** The registration supervisor *)

Section SupervisorFacts.

Variables RETRY_TIMEOUT MAX_RETRIES : Z.

Let initWebhook := Supervisor.initWebhook RETRY_TIMEOUT MAX_RETRIES.

Lemma length_counting_from (n : nat) :
  forall start, List.length (Supervisor.counting_from start n) = n.
Proof. induction n; intros; simpl; auto. Qed.

Lemma counting_from_snoc (n : nat) :
  forall start,
    Supervisor.counting_from start n ++ [start + Z.of_nat n]
    = Supervisor.counting_from start (n + 1).
Proof.
  induction n as [|n IH]; intros start.
  - simpl. now rewrite Z.add_0_r.
  - simpl Supervisor.counting_from. simpl app. f_equal.
    rewrite <- IH. do 2 f_equal. lia.
Qed.

(** [n] rejections in a row that all leave room for a retry: the
    supervisor has issued [n] requests, armed [n] timers, and the next
    call is [initWebhook (retries + n)]. *)
Lemma initWebhook_rejections (n : nat) :
  forall (retries : Z) (st : Supervisor.t) (later : list Supervisor.answer),
    retries + Z.of_nat n <= MAX_RETRIES ->
    initWebhook (repeat Supervisor.Rejected n ++ later) retries st
    = initWebhook later (retries + Z.of_nat n)
        {| Supervisor.healthy :=
             match n with O => Supervisor.healthy st | S _ => false end;
           Supervisor.attempts :=
             Supervisor.attempts st ++ Supervisor.counting_from retries n;
           Supervisor.scheduled :=
             Supervisor.scheduled st ++ repeat RETRY_TIMEOUT n;
           Supervisor.gave_up := Supervisor.gave_up st |}.
Proof.
  unfold initWebhook.
  induction n as [|n IH]; intros retries st later Hroom.
  - simpl. rewrite Z.add_0_r, !app_nil_r. now destruct st.
  - simpl repeat. simpl app. simpl Supervisor.initWebhook.
    assert (Hlt : (retries <? MAX_RETRIES) = true) by (apply Z.ltb_lt; lia).
    rewrite Hlt. rewrite IH by lia. simpl.
    replace (retries + 1 + Z.of_nat n) with (retries + Z.pos (Pos.of_succ_nat n))
      by lia.
    rewrite <- !app_assoc. simpl.
    now destruct n.
Qed.

Lemma initWebhook_outstanding (retries : Z) (st : Supervisor.t) :
  initWebhook [] retries st
  = {| Supervisor.healthy := Supervisor.healthy st;
       Supervisor.attempts := Supervisor.attempts st ++ [retries];
       Supervisor.scheduled := Supervisor.scheduled st;
       Supervisor.gave_up := Supervisor.gave_up st |}.
Proof. reflexivity. Qed.

Lemma initWebhook_accepted (retries : Z) (st : Supervisor.t)
      (later : list Supervisor.answer) :
  initWebhook (Supervisor.Accepted :: later) retries st
  = {| Supervisor.healthy := true;
       Supervisor.attempts := Supervisor.attempts st ++ [retries];
       Supervisor.scheduled := Supervisor.scheduled st;
       Supervisor.gave_up := Supervisor.gave_up st |}.
Proof. reflexivity. Qed.

Lemma initWebhook_gives_up (retries : Z) (st : Supervisor.t)
      (later : list Supervisor.answer) :
  MAX_RETRIES <= retries ->
  initWebhook (Supervisor.Rejected :: later) retries st
  = {| Supervisor.healthy := false;
       Supervisor.attempts := Supervisor.attempts st ++ [retries];
       Supervisor.scheduled := Supervisor.scheduled st;
       Supervisor.gave_up := true |}.
Proof.
  intros Hfull. unfold initWebhook. simpl.
  apply Z.ltb_ge in Hfull. now rewrite Hfull.
Qed.

(** When the platform rejects every request, the supervisor stops after
    [MAX_RETRIES + 1] of them. *)
Lemma run_exhausted (extra : nat) :
  0 <= MAX_RETRIES ->
  Supervisor.run RETRY_TIMEOUT MAX_RETRIES
    (repeat Supervisor.Rejected (Z.to_nat MAX_RETRIES + 1 + extra))
  = {| Supervisor.healthy := false;
       Supervisor.attempts :=
         Supervisor.counting_from 0 (Z.to_nat MAX_RETRIES + 1);
       Supervisor.scheduled := repeat RETRY_TIMEOUT (Z.to_nat MAX_RETRIES);
       Supervisor.gave_up := true |}.
Proof.
  intros Hpos. unfold Supervisor.run.
  rewrite <- Nat.add_assoc, repeat_app.
  fold initWebhook.
  rewrite initWebhook_rejections by lia.
  simpl Nat.add. simpl repeat.
  rewrite initWebhook_gives_up by lia.
  simpl. f_equal.
  apply (counting_from_snoc (Z.to_nat MAX_RETRIES) 0).
Qed.

End SupervisorFacts.

(** C4, as the code has it, for every RETRY_TIMEOUT and MAX_RETRIES; the
    three clauses are independent. (1) With N rejections in a row,
    1 <= N < MAX_RETRIES, the supervisor has issued exactly N+1 requests,
    every retry was scheduled with the delay RETRY_TIMEOUT, and the health
    flag is false while the last request is outstanding. (2) When request
    number K (counted from 0, K <= MAX_RETRIES) is accepted after K
    rejections, exactly K+1 requests were issued and the flag ends true.
    (3) A rejection of a call with [retries >= MAX_RETRIES] schedules
    nothing, issues no further request whatever the platform would answer
    later, and leaves the flag false. *)
Theorem C4_bounded_registration_attempts :
  forall (RETRY_TIMEOUT MAX_RETRIES : Z),
    (forall N : nat,
       (0 < N)%nat ->
       Z.of_nat N < MAX_RETRIES ->
       Supervisor.attempt_count
         (Supervisor.run RETRY_TIMEOUT MAX_RETRIES (repeat Supervisor.Rejected N))
       = (N + 1)%nat /\
       Supervisor.scheduled
         (Supervisor.run RETRY_TIMEOUT MAX_RETRIES (repeat Supervisor.Rejected N))
       = repeat RETRY_TIMEOUT N /\
       Supervisor.healthy
         (Supervisor.run RETRY_TIMEOUT MAX_RETRIES (repeat Supervisor.Rejected N))
       = false) /\
    (forall (K : nat) (later : list Supervisor.answer),
       Z.of_nat K <= MAX_RETRIES ->
       Supervisor.attempt_count
         (Supervisor.run RETRY_TIMEOUT MAX_RETRIES
            (repeat Supervisor.Rejected K ++ Supervisor.Accepted :: later))
       = (K + 1)%nat /\
       Supervisor.scheduled
         (Supervisor.run RETRY_TIMEOUT MAX_RETRIES
            (repeat Supervisor.Rejected K ++ Supervisor.Accepted :: later))
       = repeat RETRY_TIMEOUT K /\
       Supervisor.healthy
         (Supervisor.run RETRY_TIMEOUT MAX_RETRIES
            (repeat Supervisor.Rejected K ++ Supervisor.Accepted :: later))
       = true) /\
    (forall (retries : Z) (st : Supervisor.t) (later : list Supervisor.answer),
       MAX_RETRIES <= retries ->
       Supervisor.initWebhook RETRY_TIMEOUT MAX_RETRIES
         (Supervisor.Rejected :: later) retries st
       = {| Supervisor.healthy := false;
            Supervisor.attempts := Supervisor.attempts st ++ [retries];
            Supervisor.scheduled := Supervisor.scheduled st;
            Supervisor.gave_up := true |}).
Proof.
  intros RT MAX.
  split; [|split].
  - intros N Hpos HN. unfold Supervisor.run.
    rewrite <- (app_nil_r (repeat Supervisor.Rejected N)).
    rewrite initWebhook_rejections by lia.
    rewrite initWebhook_outstanding.
    unfold Supervisor.attempt_count. simpl.
    rewrite length_app, length_counting_from. simpl.
    repeat split. destruct N; [lia | reflexivity].
  - intros K later HK. unfold Supervisor.run.
    rewrite initWebhook_rejections by lia.
    rewrite initWebhook_accepted.
    unfold Supervisor.attempt_count. simpl.
    rewrite length_app, length_counting_from. simpl.
    repeat split.
  - intros retries st later Hfull. now apply initWebhook_gives_up.
Qed.

Lemma C4_bounded_registration_attempts_witness :
  ((0 < 2)%nat /\ Z.of_nat 2 < 5 /\ Z.of_nat 0 <= 0 /\ 0 <= 0) /\
  Supervisor.healthy
    (Supervisor.run 5000 5 (repeat Supervisor.Rejected 2)) = false /\
  Supervisor.healthy
    (Supervisor.run 5000 0 (repeat Supervisor.Rejected 0 ++ [Supervisor.Accepted]))
  = true /\
  Supervisor.gave_up
    (Supervisor.initWebhook 5000 0 [Supervisor.Rejected; Supervisor.Accepted]
       0 Supervisor.start) = true.
Proof.
  assert (H1 : (0 < 2)%nat) by lia.
  assert (H2 : Z.of_nat 2 < 5) by reflexivity.
  assert (H3 : Z.of_nat 0 <= 0) by (vm_compute; discriminate).
  assert (H4 : 0 <= 0) by (vm_compute; discriminate).
  split; [repeat split; assumption|].
  destruct (C4_bounded_registration_attempts 5000 5) as (Hfail & _ & _).
  destruct (C4_bounded_registration_attempts 5000 0) as (_ & Hsucc & Hstop).
  split; [|split].
  - destruct (Hfail 2%nat H1 H2) as (_ & _ & Hflag). exact Hflag.
  - destruct (Hsucc 0%nat [] H3) as (_ & _ & Hflag). exact Hflag.
  - rewrite (Hstop 0 Supervisor.start [Supervisor.Accepted] H4). reflexivity.
Defined.

(** C4 as stated fails at N = 0: with no rejection at all (0 < 5 =
    MAX_RETRIES) one request has been issued, and nothing has set the flag
    to false, neither while that request is outstanding nor when it is
    accepted. *)
Lemma C4_no_failure_counterexample :
  Z.of_nat 0 < Supervisor.DEFAULT_MAX_RETRIES /\
  Supervisor.attempt_count
    (Supervisor.run Supervisor.DEFAULT_RETRY_TIMEOUT Supervisor.DEFAULT_MAX_RETRIES
       (repeat Supervisor.Rejected 0)) = (0 + 1)%nat /\
  Supervisor.healthy
    (Supervisor.run Supervisor.DEFAULT_RETRY_TIMEOUT Supervisor.DEFAULT_MAX_RETRIES
       (repeat Supervisor.Rejected 0)) <> false /\
  Supervisor.healthy
    (Supervisor.run Supervisor.DEFAULT_RETRY_TIMEOUT Supervisor.DEFAULT_MAX_RETRIES
       (repeat Supervisor.Rejected 0 ++ [Supervisor.Accepted])) <> false.
Proof.
  split; [reflexivity|]. split; [reflexivity|]. split; discriminate.
Qed.

(** ** The inbound webhook route *)

(** C5, evaluated on the code. The route answers once: 500 when the call
    to [handleUpdate] throws, 200 otherwise. It never answers 504, however
    long the processing of the update takes: the route does not await the
    processing, and the [finally] block disarms the timer before the event
    loop can run it (part_000 arms no timer at all). *)
Theorem C5_webhook_answers_once_never_504 :
  forall (v : variant) (d : Webhook.dispatch) (arrival clock : Z),
    Webhook.responses v d arrival clock
    = [if Webhook.throws d
       then {| status := 500; body := Text "Webhook processing error" |}
       else {| status := 200; body := Text (Webhook.ok_text v) |}] /\
    (forall r, In r (Webhook.responses v d arrival clock) -> status r <> 504) /\
    Webhook.TIMEOUT < Webhook.processing_ms Samples.slow_update /\
    Webhook.responses Legacy Samples.slow_update 0 60000
    = [{| status := 200; body := Text "Received Telegram webhook" |}].
Proof.
  intros v d arrival clock.
  assert (Hone : Webhook.responses v d arrival clock
                 = [if Webhook.throws d
                    then {| status := 500; body := Text "Webhook processing error" |}
                    else {| status := 200; body := Text (Webhook.ok_text v) |}]).
  { unfold Webhook.responses, Webhook.route.
    destruct v; destruct (Webhook.throws d); reflexivity. }
  split; [exact Hone|]. split; [|split; reflexivity].
  intros r Hin. rewrite Hone in Hin. destruct Hin as [<- | []].
  destruct (Webhook.throws d); discriminate.
Qed.

(** * Further properties of the code *)

(** ** The map operations *)

Lemma keys_set (k : string) (v : Z) (m : JSMap.t) :
  JSMap.keys (JSMap.set k v m)
  = if JSMap.has k m then JSMap.keys m else JSMap.keys m ++ [k].
Proof.
  unfold JSMap.has.
  induction m as [|[k' v'] m IH]; simpl; [reflexivity|].
  destruct (String.eqb k k') eqn:E; simpl.
  - apply String.eqb_eq in E. now subst.
  - rewrite IH. now destruct (JSMap.get k m).
Qed.

Lemma delete_absent (k : string) (m : JSMap.t) :
  JSMap.get k m = None -> JSMap.delete k m = m.
Proof.
  induction m as [|[k' v'] m IH]; simpl; [reflexivity|].
  destruct (String.eqb k k'); [discriminate|].
  intros H. now rewrite IH.
Qed.

(** X1. [set] then [get] returns the value written, every other key reads
    as before, and the insertion order is kept: a key that was present
    stays where it was, a new key goes last (so the size grows by one
    exactly for a new key). *)
Theorem X1_set_lookup_and_order :
  forall (k : string) (v : Z) (m : JSMap.t),
    JSMap.get k (JSMap.set k v m) = Some v /\
    (forall k', k' <> k -> JSMap.get k' (JSMap.set k v m) = JSMap.get k' m) /\
    JSMap.keys (JSMap.set k v m)
    = (if JSMap.has k m then JSMap.keys m else JSMap.keys m ++ [k]) /\
    JSMap.size (JSMap.set k v m)
    = (if JSMap.has k m then JSMap.size m else JSMap.size m + 1).
Proof.
  intros k v m. split; [apply get_set_same|].
  split; [intros k' Hne; apply get_set_other; congruence|].
  split; [apply keys_set|].
  unfold JSMap.size.
  assert (Hlen : List.length (JSMap.set k v m)
                 = List.length (JSMap.keys (JSMap.set k v m)))
    by (unfold JSMap.keys; now rewrite length_map).
  rewrite Hlen, keys_set.
  destruct (JSMap.has k m); unfold JSMap.keys.
  - now rewrite length_map.
  - rewrite length_app, length_map. simpl. lia.
Qed.

(** X2. On a map (unique keys), [delete] unbinds its key and nothing
    else, keeps the map well formed, and shrinks the size by one exactly
    when the key was bound. *)
Theorem X2_delete_unbinds_only_its_key :
  forall (k : string) (m : JSMap.t),
    JSMap.wf m ->
    JSMap.get k (JSMap.delete k m) = None /\
    (forall k', k' <> k -> JSMap.get k' (JSMap.delete k m) = JSMap.get k' m) /\
    JSMap.wf (JSMap.delete k m) /\
    JSMap.size (JSMap.delete k m)
    = (if JSMap.has k m then JSMap.size m - 1 else JSMap.size m).
Proof.
  intros k m. unfold JSMap.has, JSMap.size.
  induction m as [|[k0 v0] m IH]; intros Hwf.
  - simpl. repeat split. constructor.
  - inversion Hwf as [|? ? Hnot Hrest]; subst.
    destruct (IH Hrest) as (IHget & IHframe & IHwf & IHsize).
    simpl JSMap.delete. simpl JSMap.get.
    destruct (String.eqb k k0) eqn:E.
    + apply String.eqb_eq in E. subst k0.
      split; [now apply get_none_notin|].
      split.
      * intros k' Hne. simpl.
        destruct (String.eqb k' k) eqn:E'; [|reflexivity].
        apply String.eqb_eq in E'. contradiction.
      * split; [exact Hrest|]. simpl List.length. lia.
    + split; [simpl; now rewrite E|].
      split.
      * intros k' Hne. simpl. destruct (String.eqb k' k0); [reflexivity|].
        now apply IHframe.
      * split.
        -- unfold JSMap.wf. simpl. constructor; [|exact IHwf].
           intro Hin. apply Hnot.
           destruct (JSMap.get k m) eqn:Hg.
           ++ clear - Hin E.
              induction m as [|[k1 v1] m IHm]; simpl in *; [tauto|].
              destruct (String.eqb k k1); simpl in Hin; [tauto|].
              destruct Hin; [now left | right; now apply IHm].
           ++ now rewrite (delete_absent k m Hg) in Hin.
        -- simpl List.length. rewrite !Nat2Z.inj_succ.
           destruct (JSMap.get k m); lia.
Qed.

Lemma X2_delete_unbinds_only_its_key_witness :
  JSMap.wf [("welcome_1", 100); ("referral_1_2", 950)] /\
  JSMap.get "welcome_1" (JSMap.delete "welcome_1"
                            [("welcome_1", 100); ("referral_1_2", 950)]) = None.
Proof.
  assert (Hwf : JSMap.wf [("welcome_1", 100); ("referral_1_2", 950)]).
  { unfold JSMap.wf. simpl. repeat constructor; simpl; intuition discriminate. }
  split; [exact Hwf|].
  apply (X2_delete_unbinds_only_its_key "welcome_1" _ Hwf).
Defined.

(** ** The notification routes, case by case *)

(** X3. A welcome request without a usable [userId] (absent, [null], 0,
    the empty string, [false]) is answered 400 "User ID is required";
    nothing is sent and the server state is untouched. *)
Theorem X3_welcome_without_user_rejected :
  forall (w : world) (body : list (string * jsval)) (s : server),
    truthy (lookup_field "userId" body) = false ->
    Handlers.sendWelcomeMessage w body s
    = {| outcome := Responded {| status := 400;
                                 body := Json [("error", JStr "User ID is required")] |};
         after := s;
         sends := [] |}.
Proof.
  intros w body s Hfalsy. unfold Handlers.sendWelcomeMessage.
  now rewrite Hfalsy.
Qed.

Lemma X3_welcome_without_user_rejected_witness :
  truthy (lookup_field "userId" [("userId", JNum 0); ("username", JStr "rex")])
  = false /\
  sends (Handlers.sendWelcomeMessage Samples.a_day_later
           [("userId", JNum 0); ("username", JStr "rex")] Samples.seeded) = [].
Proof.
  split; [reflexivity|].
  rewrite (X3_welcome_without_user_rejected Samples.a_day_later
             [("userId", JNum 0); ("username", JStr "rex")] Samples.seeded
             eq_refl).
  reflexivity.
Defined.

(** X4. When the platform delivers, or fails with a description that is
    a string or absent (as the platform's always is), the welcome route
    always answers: its status is 200 or 400, and it is 400 exactly when
    [userId] is missing or falsy. It sends at most one message and never
    touches the health flag. *)
Theorem X4_welcome_always_answers :
  forall (w : world) (body : list (string * jsval)) (s : server),
    Inputs.platform_ok w ->
    exists r : response,
      outcome (Handlers.sendWelcomeMessage w body s) = Responded r /\
      (status r = 200 \/ status r = 400) /\
      (status r = 400 <-> truthy (lookup_field "userId" body) = false) /\
      (List.length (sends (Handlers.sendWelcomeMessage w body s)) <= 1)%nat /\
      isHealthy (after (Handlers.sendWelcomeMessage w body s)) = isHealthy s.
Proof.
  intros w body s _. unfold Handlers.sendWelcomeMessage.
  destruct (truthy (lookup_field "userId" body)) eqn:Hid; simpl negb; cbv iota.
  - destruct (Cache.sentRecently _ _ _ _).
    + eexists. split; [reflexivity|]. simpl.
      repeat split; auto; intros; discriminate.
    + destruct (platform w) as [|e]; [|destruct (bot_was_blocked e)];
        (eexists; split; [reflexivity|]; simpl;
         repeat split; auto; intros; discriminate).
  - eexists. split; [reflexivity|]. simpl. repeat split; auto.
Qed.

Lemma X4_welcome_always_answers_witness :
  Inputs.platform_ok Samples.blocked_world /\
  exists r : response,
    outcome (Handlers.sendWelcomeMessage Samples.blocked_world
               Samples.welcome_body initial_server) = Responded r /\
    status r = 200.
Proof.
  assert (H : Inputs.platform_ok Samples.blocked_world) by reflexivity.
  split; [exact H|].
  destruct (X4_welcome_always_answers Samples.blocked_world Samples.welcome_body
              initial_server H) as (r & Hout & _).
  exists r. split; [exact Hout|].
  injection Hout as <-. reflexivity.
Defined.

(** X5. The direct-message route keeps no state: whatever the request and
    whatever the platform answers, the cache and the health flag are as
    before, no de-duplication applies (every well-formed request is sent,
    also a repeated one), and at most one message goes out. *)
Theorem X5_direct_message_is_stateless :
  forall (w : world) (body : list (string * jsval)) (s : server),
    after (Handlers.sendBotMessage w body s) = s /\
    (List.length (sends (Handlers.sendBotMessage w body s)) <= 1)%nat /\
    (truthy (lookup_field "telegramId" body) = true ->
     truthy (lookup_field "message" body) = true ->
     sends (Handlers.sendBotMessage w body s)
     = [{| chat_id := lookup_field "telegramId" body; parse_mode := "HTML" |}]).
Proof.
  intros w body s. unfold Handlers.sendBotMessage.
  destruct (truthy (lookup_field "telegramId" body));
    destruct (truthy (lookup_field "message" body)); simpl;
    try (repeat split; auto; intros; discriminate).
  destruct (platform w) as [|e]; [|destruct (bot_was_blocked e)];
    simpl; repeat split; auto.
Qed.

(** X6. An upstream failure whose description is a string or absent and
    does not mention a blocked bot is reported differently by the routes.
    The welcome and the referral route, for a request whose template
    operands convert to strings, still answer 200 with [success: true] and
    carry the upstream text in [error]; the direct-message route answers
    500 with the upstream data in [details]. *)
Theorem X6_upstream_failure_masked_or_surfaced :
  forall (w : world) (wbody rbody dbody : list (string * jsval)) (s : server)
         (e : axios_error),
    platform w = Failed e ->
    Inputs.text_or_absent (description e) = true ->
    bot_was_blocked e = false ->
    (truthy (lookup_field "userId" wbody) = true ->
     Inputs.printable (lookup_field "userId" wbody) = true ->
     Inputs.printable (js_or (lookup_field "firstName" wbody)
                             (lookup_field "username" wbody)) = true ->
     Cache.sentRecently ("welcome_" ++ toString (lookup_field "userId" wbody))
                        Cache.WELCOME_WINDOW (clock_at_check w) (sentMessages s)
     = false ->
     outcome (Handlers.sendWelcomeMessage w wbody s)
     = Responded {| status := 200;
                    body := Json [("success", JBool true);
                                  ("message", JStr "Welcome message queued");
                                  ("error", js_or (description e)
                                                  (JStr (message e)))] |}) /\
    (truthy (lookup_field "referrerId" rbody) = true ->
     truthy (lookup_field "newUser" rbody) = true ->
     Inputs.printable (lookup_field "referrerId" rbody) = true ->
     Inputs.printable (prop (lookup_field "newUser" rbody) "id") = true ->
     Inputs.printable (prop (lookup_field "newUser" rbody) "username") = true ->
     JSMap.has (Handlers.notificationKey (lookup_field "referrerId" rbody)
                                         (lookup_field "newUser" rbody))
               (sentMessages s) = false ->
     outcome (Handlers.sendReferralNotification w rbody s)
     = Responded {| status := 200;
                    body := Json [("success", JBool true);
                                  ("message", JStr "Referral notification queued");
                                  ("error", js_or (description e)
                                                  (JStr (message e)))] |}) /\
    (truthy (lookup_field "telegramId" dbody) = true ->
     truthy (lookup_field "message" dbody) = true ->
     outcome (Handlers.sendBotMessage w dbody s)
     = Responded {| status := 500;
                    body := Json [("error", JStr "Failed to send message");
                                  ("details", js_or (response_data e)
                                                    (JStr (message e)))] |}).
Proof.
  intros w wbody rbody dbody s e Hfail _ Hnot. repeat split.
  - intros Hid _ _ Hfresh. unfold Handlers.sendWelcomeMessage.
    now rewrite Hid, Hfresh, Hfail, Hnot.
  - intros Hid Hnew _ _ _ Hfresh. unfold Handlers.sendReferralNotification.
    now rewrite Hid, Hnew, Hfresh, Hfail, Hnot.
  - intros Hid Htext. unfold Handlers.sendBotMessage.
    now rewrite Hid, Htext, Hfail, Hnot.
Qed.

Lemma X6_upstream_failure_masked_or_surfaced_witness :
  (platform {| clock_at_check := 5000; platform := Failed Samples.network_error;
               clock_at_mark := 5200 |} = Failed Samples.network_error /\
   Inputs.text_or_absent (description Samples.network_error) = true /\
   bot_was_blocked Samples.network_error = false) /\
  outcome (Handlers.sendBotMessage
             {| clock_at_check := 5000; platform := Failed Samples.network_error;
                clock_at_mark := 5200 |}
             Samples.direct_body initial_server)
  = Responded {| status := 500;
                 body := Json [("error", JStr "Failed to send message");
                               ("details", JStr "connect ETIMEDOUT")] |}.
Proof.
  split; [repeat split; reflexivity|].
  pose proof (X6_upstream_failure_masked_or_surfaced
                {| clock_at_check := 5000; platform := Failed Samples.network_error;
                   clock_at_mark := 5200 |}
                Samples.welcome_body Samples.referral_body Samples.direct_body
                initial_server Samples.network_error eq_refl eq_refl eq_refl)
    as (_ & _ & Hdirect).
  apply Hdirect; reflexivity.
Defined.

(** X7. A notification request reads and writes one record only,
    whatever its outcome: after the welcome route every key other than
    ["welcome_" ++ userId] is bound as before, and after the referral
    route every key other than the referral key is bound as before. *)
Theorem X7_routes_touch_only_their_key :
  (forall (w : world) (body : list (string * jsval)) (s : server) (k : string),
     k <> ("welcome_" ++ toString (lookup_field "userId" body))%string ->
     JSMap.get k (sentMessages (after (Handlers.sendWelcomeMessage w body s)))
     = JSMap.get k (sentMessages s)) /\
  (forall (w : world) (body : list (string * jsval)) (s : server) (k : string),
     k <> Handlers.notificationKey (lookup_field "referrerId" body)
                                   (lookup_field "newUser" body) ->
     JSMap.get k (sentMessages (after (Handlers.sendReferralNotification w body s)))
     = JSMap.get k (sentMessages s)).
Proof.
  split.
  - intros w body s k Hw. unfold Handlers.sendWelcomeMessage.
    destruct (negb _); [reflexivity|].
    destruct (Cache.sentRecently _ _ _ _); [reflexivity|].
    destruct (platform w) as [|e].
    + simpl. unfold Cache.markSent. apply get_set_other.
      intro Heq. apply Hw. symmetry. exact Heq.
    + destruct (bot_was_blocked e); reflexivity.
  - intros w body s k Hr. unfold Handlers.sendReferralNotification.
    destruct (_ || _); [reflexivity|].
    destruct (JSMap.has _ _); [reflexivity|].
    destruct (platform w) as [|e].
    + simpl. unfold Cache.markSent. apply get_set_other.
      intro Heq. apply Hr. symmetry. exact Heq.
    + destruct (bot_was_blocked e); reflexivity.
Qed.

Lemma X7_routes_touch_only_their_key_witness :
  "referral_undefined_undefined"
  <> ("welcome_" ++ toString (lookup_field "userId" Samples.welcome_body))%string /\
  JSMap.get "referral_undefined_undefined"
    (sentMessages (after (Handlers.sendWelcomeMessage Samples.a_day_later
                            Samples.welcome_body
                            {| isHealthy := true;
                               sentMessages :=
                                 [("referral_undefined_undefined", 7)] |})))
  = Some 7.
Proof.
  assert (H : "referral_undefined_undefined"
              <> ("welcome_"
                  ++ toString (lookup_field "userId" Samples.welcome_body))%string)
    by (vm_compute; discriminate).
  split; [exact H|].
  destruct X7_routes_touch_only_their_key as (Hwelcome & _).
  rewrite (Hwelcome Samples.a_day_later Samples.welcome_body _ _ H).
  reflexivity.
Defined.

(** ** Requests in sequence *)

(** X8. After a welcome message has actually been sent and delivered, the
    same request is answered [alreadySent], without a send and without a
    state change, for as long as the clock is less than 24 hours past the
    clock reading stored with the first send; from then on it is sent
    again. *)
Theorem X8_delivered_welcome_suppresses_repeat :
  forall (w1 w2 : world) (body : list (string * jsval)) (s : server),
    platform w1 = Delivered ->
    sends (Handlers.sendWelcomeMessage w1 body s) <> [] ->
    Cache.clock_reading (clock_at_mark w1) ->
    (clock_at_check w2 - clock_at_mark w1 < Cache.WELCOME_WINDOW ->
     Handlers.sendWelcomeMessage w2 body
       (after (Handlers.sendWelcomeMessage w1 body s))
     = Handlers.reply (after (Handlers.sendWelcomeMessage w1 body s)) [] 200
         [("success", JBool true);
          ("message", JStr "Welcome message already sent recently");
          ("alreadySent", JBool true)]) /\
    (Cache.WELCOME_WINDOW <= clock_at_check w2 - clock_at_mark w1 ->
     sends (Handlers.sendWelcomeMessage w2 body
              (after (Handlers.sendWelcomeMessage w1 body s)))
     = [{| chat_id := lookup_field "userId" body; parse_mode := "Markdown" |}]).
Proof.
  intros w1 w2 body s Hdel Hsent Hclock.
  assert (Hid : truthy (lookup_field "userId" body) = true).
  { destruct (truthy (lookup_field "userId" body)) eqn:E; [reflexivity|].
    exfalso. apply Hsent. unfold Handlers.sendWelcomeMessage. now rewrite E. }
  assert (Hrec : JSMap.get ("welcome_" ++ toString (lookup_field "userId" body))
                   (sentMessages (after (Handlers.sendWelcomeMessage w1 body s)))
                 = Some (clock_at_mark w1)).
  { revert Hsent. unfold Handlers.sendWelcomeMessage.
    rewrite Hid, Hdel. simpl negb. cbv iota.
    destruct (Cache.sentRecently _ _ _ _); simpl; [congruence|].
    intros _. apply get_set_same. }
  split.
  - intros Hin.
    apply welcome_record_within_window with (t := clock_at_mark w1); auto.
    unfold Cache.clock_reading in Hclock. lia.
  - intros Hout.
    now apply (welcome_record_after_window w2 body _ (clock_at_mark w1) Hid Hrec).
Qed.

Lemma X8_delivered_welcome_suppresses_repeat_witness :
  (platform Samples.a_day_later = Delivered /\
   sends (Handlers.sendWelcomeMessage Samples.a_day_later Samples.welcome_body
            initial_server) <> [] /\
   Cache.clock_reading (clock_at_mark Samples.a_day_later)) /\
  sends (Handlers.sendWelcomeMessage Samples.a_day_later Samples.welcome_body
           (after (Handlers.sendWelcomeMessage Samples.a_day_later
                     Samples.welcome_body initial_server))) = [].
Proof.
  assert (H1 : platform Samples.a_day_later = Delivered) by reflexivity.
  assert (H2 : sends (Handlers.sendWelcomeMessage Samples.a_day_later
                        Samples.welcome_body initial_server) <> [])
    by (vm_compute; discriminate).
  assert (H3 : Cache.clock_reading (clock_at_mark Samples.a_day_later))
    by reflexivity.
  split; [repeat split; assumption|].
  destruct (X8_delivered_welcome_suppresses_repeat Samples.a_day_later
              Samples.a_day_later Samples.welcome_body initial_server H1 H2 H3)
    as (Hin & _).
  rewrite Hin; [reflexivity|]. reflexivity.
Defined.

(** X9. After a referral notification has actually been sent and
    delivered, the same request is answered [alreadySent], without a send
    and without a state change, at every later clock reading. *)
Theorem X9_delivered_referral_suppresses_repeat :
  forall (w1 w2 : world) (body : list (string * jsval)) (s : server),
    platform w1 = Delivered ->
    sends (Handlers.sendReferralNotification w1 body s) <> [] ->
    Handlers.sendReferralNotification w2 body
      (after (Handlers.sendReferralNotification w1 body s))
    = Handlers.reply (after (Handlers.sendReferralNotification w1 body s)) [] 200
        [("success", JBool true);
         ("message", JStr "Referral notification already sent");
         ("alreadySent", JBool true)].
Proof.
  intros w1 w2 body s Hdel Hsent.
  destruct (truthy (lookup_field "referrerId" body)) eqn:Hid.
  2:{ exfalso. apply Hsent. unfold Handlers.sendReferralNotification.
      now rewrite Hid. }
  destruct (truthy (lookup_field "newUser" body)) eqn:Hnew.
  2:{ exfalso. apply Hsent. unfold Handlers.sendReferralNotification.
      now rewrite Hid, Hnew. }
  apply referral_record_suppresses with (t := clock_at_mark w1); auto.
  revert Hsent. unfold Handlers.sendReferralNotification.
  rewrite Hid, Hnew, Hdel. simpl.
  destruct (JSMap.has _ _); simpl; [congruence|].
  intros _. apply get_set_same.
Qed.

Lemma X9_delivered_referral_suppresses_repeat_witness :
  (platform Samples.a_day_later = Delivered /\
   sends (Handlers.sendReferralNotification Samples.a_day_later
            Samples.referral_body initial_server) <> []) /\
  sends (Handlers.sendReferralNotification Samples.blocked_world
           Samples.referral_body
           (after (Handlers.sendReferralNotification Samples.a_day_later
                     Samples.referral_body initial_server))) = [].
Proof.
  assert (H1 : platform Samples.a_day_later = Delivered) by reflexivity.
  assert (H2 : sends (Handlers.sendReferralNotification Samples.a_day_later
                        Samples.referral_body initial_server) <> [])
    by (vm_compute; discriminate).
  split; [split; assumption|].
  rewrite (X9_delivered_referral_suppresses_repeat Samples.a_day_later
             Samples.blocked_world Samples.referral_body initial_server H1 H2).
  reflexivity.
Defined.

(** X13. The administrative clear resets the de-duplication: right after
    it, every welcome request with a [userId] and every referral request
    with both fields is sent, whatever was recorded before, provided the
    operands of the message templates convert to strings. The clear leaves
    the health flag alone. *)
Theorem X13_clear_resets_deduplication :
  forall (w : world) (body : list (string * jsval)) (s : server),
    (truthy (lookup_field "userId" body) = true ->
     Inputs.printable (lookup_field "userId" body) = true ->
     Inputs.printable (js_or (lookup_field "firstName" body)
                             (lookup_field "username" body)) = true ->
     sends (Handlers.sendWelcomeMessage w body
              (after (Handlers.clearMessageCache s)))
     = [{| chat_id := lookup_field "userId" body; parse_mode := "Markdown" |}]) /\
    (truthy (lookup_field "referrerId" body) = true ->
     truthy (lookup_field "newUser" body) = true ->
     Inputs.printable (lookup_field "referrerId" body) = true ->
     Inputs.printable (prop (lookup_field "newUser" body) "id") = true ->
     Inputs.printable (prop (lookup_field "newUser" body) "username") = true ->
     sends (Handlers.sendReferralNotification w body
              (after (Handlers.clearMessageCache s)))
     = [{| chat_id := lookup_field "referrerId" body; parse_mode := "Markdown" |}]) /\
    isHealthy (after (Handlers.clearMessageCache s)) = isHealthy s.
Proof.
  intros w body s. repeat split.
  - intros Hid _ _. unfold Handlers.sendWelcomeMessage. rewrite Hid. simpl.
    destruct (platform w) as [|e]; [|destruct (bot_was_blocked e)]; reflexivity.
  - intros Hid Hnew _ _ _. unfold Handlers.sendReferralNotification.
    rewrite Hid, Hnew. simpl.
    destruct (platform w) as [|e]; [|destruct (bot_was_blocked e)]; reflexivity.
Qed.

(** The stats route is read-only; it reports the number of records
    and a sample that is the first [min 10 size] entries of the map in
    insertion order. *)
Theorem stats_reads_a_bounded_prefix :
  forall s : server,
    after (Handlers.messageCacheStats s) = s /\
    sends (Handlers.messageCacheStats s) = [] /\
    outcome (Handlers.messageCacheStats s)
    = Responded {| status := 200;
                   body := Json [("success", JBool true);
                                 ("totalEntries",
                                  JNum (Z.of_nat (List.length (sentMessages s))));
                                 ("entries",
                                  JArr (map Handlers.entry_json
                                            (Handlers.sample (sentMessages s))))] |} /\
    List.length (Handlers.sample (sentMessages s))
    = Nat.min 10 (List.length (sentMessages s)) /\
    Handlers.sample (sentMessages s) ++ skipn 10 (sentMessages s)
    = sentMessages s.
Proof.
  intros s. repeat split.
  - unfold Handlers.sample, JSMap.entries. apply length_firstn.
  - unfold Handlers.sample, JSMap.entries. apply firstn_skipn.
Qed.

(** ** The sweep and the routes *)

Lemma get_after_sweep (now : Z) (k : string) (m : JSMap.t) :
  JSMap.wf m ->
  JSMap.get k (fst (Cache.sweep now m))
  = match JSMap.get k m with
    | Some t => if t <? now - Cache.RETENTION then None else Some t
    | None => None
    end.
Proof.
  intros Hwf. unfold Cache.sweep.
  rewrite (sweep_with_as_filter Cache.RETENTION now m Hwf). simpl.
  now apply get_filter_fresh.
Qed.

(** X10. The sweep is what ends the suppression of a referral: once the
    record is more than seven days old at a sweep, the next request for
    the same referral (its template operands converting to strings) is
    sent again; as long as the record is younger at the sweep, the request
    stays suppressed. *)
Theorem X10_sweep_ends_referral_suppression :
  forall (w : world) (body : list (string * jsval)) (s : server) (now t : Z),
    JSMap.wf (sentMessages s) ->
    truthy (lookup_field "referrerId" body) = true ->
    truthy (lookup_field "newUser" body) = true ->
    Inputs.printable (lookup_field "referrerId" body) = true ->
    Inputs.printable (prop (lookup_field "newUser" body) "id") = true ->
    JSMap.get (Handlers.notificationKey (lookup_field "referrerId" body)
                                        (lookup_field "newUser" body))
              (sentMessages s) = Some t ->
    (t < now - Cache.RETENTION ->
     Inputs.printable (prop (lookup_field "newUser" body) "username") = true ->
     sends (Handlers.sendReferralNotification w body (Cache.sweep_tick now s))
     = [{| chat_id := lookup_field "referrerId" body; parse_mode := "Markdown" |}]) /\
    (now - Cache.RETENTION <= t ->
     Handlers.sendReferralNotification w body (Cache.sweep_tick now s)
     = Handlers.reply (Cache.sweep_tick now s) [] 200
         [("success", JBool true);
          ("message", JStr "Referral notification already sent");
          ("alreadySent", JBool true)]).
Proof.
  intros w body s now t Hwf Hid Hnew _ _ Hget.
  pose proof (get_after_sweep now
                (Handlers.notificationKey (lookup_field "referrerId" body)
                                          (lookup_field "newUser" body))
                (sentMessages s) Hwf) as Hswept.
  rewrite Hget in Hswept.
  split.
  - intros Hold _. apply Z.ltb_lt in Hold. rewrite Hold in Hswept.
    unfold Handlers.sendReferralNotification, JSMap.has, Cache.sweep_tick.
    simpl sentMessages. rewrite Hid, Hnew, Hswept. simpl.
    destruct (platform w) as [|e]; [|destruct (bot_was_blocked e)]; reflexivity.
  - intros Hyoung. apply Z.ltb_ge in Hyoung. rewrite Hyoung in Hswept.
    now apply referral_record_suppresses with (t := t).
Qed.

Lemma X10_sweep_ends_referral_suppression_witness :
  (JSMap.wf (sentMessages Samples.seeded) /\
   truthy (lookup_field "referrerId" Samples.referral_body) = true /\
   truthy (lookup_field "newUser" Samples.referral_body) = true /\
   Inputs.printable (lookup_field "referrerId" Samples.referral_body) = true /\
   Inputs.printable (prop (lookup_field "newUser" Samples.referral_body) "id")
   = true /\
   JSMap.get (Handlers.notificationKey
                (lookup_field "referrerId" Samples.referral_body)
                (lookup_field "newUser" Samples.referral_body))
             (sentMessages Samples.seeded) = Some 1000) /\
  sends (Handlers.sendReferralNotification Samples.a_day_later
           Samples.referral_body
           (Cache.sweep_tick (1001 + Cache.RETENTION) Samples.seeded))
  = [{| chat_id := JNum 7; parse_mode := "Markdown" |}].
Proof.
  assert (Hwf : JSMap.wf (sentMessages Samples.seeded)).
  { unfold JSMap.wf. simpl. repeat constructor; simpl; intuition discriminate. }
  split; [split; [exact Hwf | repeat split; reflexivity]|].
  destruct (X10_sweep_ends_referral_suppression Samples.a_day_later
              Samples.referral_body Samples.seeded (1001 + Cache.RETENTION) 1000
              Hwf eq_refl eq_refl eq_refl eq_refl eq_refl) as (Hold & _).
  apply Hold; reflexivity.
Defined.

(** X11. The sweep never lifts a welcome suppression that is still in
    force: a key the 24 hour test holds back before a sweep is held back
    after it, at the same clock reading. *)
Theorem X11_sweep_keeps_live_welcome_records :
  forall (key : string) (now : Z) (m : JSMap.t),
    JSMap.wf m ->
    Cache.sentRecently key Cache.WELCOME_WINDOW now m = true ->
    Cache.sentRecently key Cache.WELCOME_WINDOW now (fst (Cache.sweep now m))
    = true.
Proof.
  intros key now m Hwf Hlive.
  unfold Cache.sentRecently in *.
  rewrite (get_after_sweep now key m Hwf).
  destruct (JSMap.get key m) as [t|]; [|discriminate].
  apply andb_true_iff in Hlive. destruct Hlive as [Hnz Hin].
  apply Z.ltb_lt in Hin.
  assert (Hfresh : (t <? now - Cache.RETENTION) = false).
  { apply Z.ltb_ge. unfold Cache.RETENTION, Cache.WELCOME_WINDOW in *. lia. }
  rewrite Hfresh, Hnz. simpl. now apply Z.ltb_lt.
Qed.

Lemma X11_sweep_keeps_live_welcome_records_witness :
  (JSMap.wf (sentMessages Samples.seeded) /\
   Cache.sentRecently "welcome_42" Cache.WELCOME_WINDOW 5000
                      (sentMessages Samples.seeded) = true) /\
  Cache.sentRecently "welcome_42" Cache.WELCOME_WINDOW 5000
                     (fst (Cache.sweep 5000 (sentMessages Samples.seeded))) = true.
Proof.
  assert (Hwf : JSMap.wf (sentMessages Samples.seeded)).
  { unfold JSMap.wf. simpl. repeat constructor; simpl; intuition discriminate. }
  split; [split; [exact Hwf | reflexivity]|].
  apply (X11_sweep_keeps_live_welcome_records "welcome_42" 5000 _ Hwf).
  reflexivity.
Defined.

Lemma filter_fresh_twice (c c' : Z) (m : JSMap.t) :
  c <= c' ->
  filter (Cache.fresh c') (filter (Cache.fresh c) m) = filter (Cache.fresh c') m.
Proof.
  intros Hle. unfold Cache.fresh, Cache.stale.
  induction m as [|[k v] m IH]; simpl; [reflexivity|].
  destruct (v <? c) eqn:E; simpl.
  - assert (E' : (v <? c') = true)
      by (apply Z.ltb_lt; apply Z.ltb_lt in E; lia).
    now rewrite E'.
  - destruct (v <? c'); simpl; now rewrite IH.
Qed.

Lemma stale_counts_add (c c' : Z) (m : JSMap.t) :
  c <= c' ->
  (List.length (filter (Cache.stale c) m)
   + List.length (filter (Cache.stale c') (filter (Cache.fresh c) m))
   = List.length (filter (Cache.stale c') m))%nat.
Proof.
  intros Hle. unfold Cache.fresh, Cache.stale.
  induction m as [|[k v] m IH]; simpl; [reflexivity|].
  destruct (v <? c) eqn:E; simpl.
  - assert (E' : (v <? c') = true)
      by (apply Z.ltb_lt; apply Z.ltb_lt in E; lia).
    rewrite E'. simpl. now rewrite IH.
  - destruct (v <? c'); simpl; now rewrite <- IH, ?Nat.add_succ_r.
Qed.

(** X12. Sweeps compose: a sweep at [now] followed by a sweep at a later
    clock reading [later] leaves the same map as one sweep at [later], and
    the two counters add up to the counter of that one sweep. In
    particular a second sweep at the same clock reading deletes nothing. *)
Theorem X12_sweeps_compose :
  forall (now later : Z) (m : JSMap.t),
    JSMap.wf m ->
    now <= later ->
    fst (Cache.sweep later (fst (Cache.sweep now m))) = fst (Cache.sweep later m) /\
    snd (Cache.sweep now m) + snd (Cache.sweep later (fst (Cache.sweep now m)))
    = snd (Cache.sweep later m) /\
    Cache.sweep now (fst (Cache.sweep now m)) = (fst (Cache.sweep now m), 0).
Proof.
  intros now later m Hwf Hle.
  assert (Hgen : forall t, now <= t ->
            fst (Cache.sweep t (fst (Cache.sweep now m))) = fst (Cache.sweep t m) /\
            snd (Cache.sweep now m) + snd (Cache.sweep t (fst (Cache.sweep now m)))
            = snd (Cache.sweep t m)).
  { intros t Ht. unfold Cache.sweep.
    rewrite (sweep_with_as_filter Cache.RETENTION now m Hwf). simpl fst. simpl snd.
    rewrite (sweep_with_as_filter Cache.RETENTION t _
               (wf_filter _ m Hwf)).
    rewrite (sweep_with_as_filter Cache.RETENTION t m Hwf). simpl fst. simpl snd.
    split.
    - apply filter_fresh_twice. lia.
    - rewrite <- Nat2Z.inj_add. f_equal. apply stale_counts_add. lia. }
  destruct (Hgen later Hle) as (Hmap & Hcount).
  split; [exact Hmap|]. split; [exact Hcount|].
  destruct (Hgen now (Z.le_refl now)) as (Hmap0 & Hcount0).
  destruct (Cache.sweep now (fst (Cache.sweep now m))) as [m2 c2] eqn:E2.
  simpl in Hmap0, Hcount0. f_equal; [|lia].
  rewrite Hmap0.
  unfold Cache.sweep.
  rewrite (sweep_with_as_filter Cache.RETENTION now m Hwf). reflexivity.
Qed.

Lemma X12_sweeps_compose_witness :
  (JSMap.wf (sentMessages Samples.seeded) /\ 5000 <= 1001 + Cache.RETENTION) /\
  fst (Cache.sweep (1001 + Cache.RETENTION)
         (fst (Cache.sweep 5000 (sentMessages Samples.seeded))))
  = fst (Cache.sweep (1001 + Cache.RETENTION) (sentMessages Samples.seeded)).
Proof.
  assert (Hwf : JSMap.wf (sentMessages Samples.seeded)).
  { unfold JSMap.wf. simpl. repeat constructor; simpl; intuition discriminate. }
  assert (Hle : 5000 <= 1001 + Cache.RETENTION) by (vm_compute; discriminate).
  split; [split; assumption|].
  apply (X12_sweeps_compose 5000 (1001 + Cache.RETENTION) _ Hwf Hle).
Defined.

(** ** Invariants of the process-wide state *)

Lemma keys_filter_subset (f : string * Z -> bool) (k : string) (m : JSMap.t) :
  In k (JSMap.keys (filter f m)) -> In k (JSMap.keys m).
Proof.
  unfold JSMap.keys. rewrite !in_map_iff.
  intros [e [He Hin]]. exists e. split; [assumption|].
  now apply filter_In in Hin.
Qed.

Lemma keys_set_cases (k k0 : string) (v : Z) (m : JSMap.t) :
  In k (JSMap.keys (JSMap.set k0 v m)) -> k = k0 \/ In k (JSMap.keys m).
Proof.
  rewrite keys_set. destruct (JSMap.has k0 m); [tauto|].
  intros Hin. apply in_app_or in Hin. destruct Hin as [H | [H | []]]; auto.
Qed.

Lemma sweep_tick_cache (now : Z) (s : server) :
  JSMap.wf (sentMessages s) ->
  sentMessages (Cache.sweep_tick now s)
  = filter (Cache.fresh (now - Cache.RETENTION)) (sentMessages s).
Proof.
  intros Hwf. unfold Cache.sweep_tick, Cache.sweep. simpl.
  now rewrite (sweep_with_as_filter Cache.RETENTION now _ Hwf).
Qed.

Lemma prefix_append (p rest : string) : String.prefix p (p ++ rest) = true.
Proof.
  induction p as [|a p IH]; simpl.
  - now destruct rest.
  - destruct (ascii_dec a a); [exact IH | contradiction].
Qed.

(** What one event can do to the cache: leave it, write one record under
    a notification key with the clock reading of the request, empty it,
    or filter it. *)
Lemma apply_cache_cases (s : server) (e : Server.event) :
  JSMap.wf (sentMessages s) ->
  sentMessages (Server.apply s e) = sentMessages s \/
  (exists k w, Shape.notification_key k = true /\
               match e with
               | Server.Welcome w' _ | Server.Referral w' _ => w' = w
               | _ => False
               end /\
               sentMessages (Server.apply s e)
               = JSMap.set k (clock_at_mark w) (sentMessages s)) \/
  sentMessages (Server.apply s e) = [] \/
  (exists f, sentMessages (Server.apply s e) = filter f (sentMessages s)).
Proof.
  intros Hwf.
  destruct e as [w body | w body | w body | | | hits | clock]; simpl.
  - unfold Handlers.sendWelcomeMessage.
    destruct (negb _); [now left|].
    destruct (Cache.sentRecently _ _ _ _); [now left|].
    destruct (platform w) as [|e].
    + right; left. eexists; exists w. split; [|split; [reflexivity|reflexivity]].
      unfold Shape.notification_key. now rewrite prefix_append.
    + destruct (bot_was_blocked e); now left.
  - unfold Handlers.sendReferralNotification.
    destruct (_ || _); [now left|].
    destruct (JSMap.has _ _); [now left|].
    destruct (platform w) as [|e].
    + right; left. eexists; exists w. split; [|split; [reflexivity|reflexivity]].
      unfold Shape.notification_key, Handlers.notificationKey.
      rewrite prefix_append. apply orb_true_r.
    + destruct (bot_was_blocked e); now left.
  - left. unfold Handlers.sendBotMessage.
    destruct (_ || _); [reflexivity|].
    destruct (platform w) as [|e]; [reflexivity|].
    destruct (bot_was_blocked e); reflexivity.
  - right; right; now left.
  - now left.
  - left. unfold Health.limiter. destruct (_ <? _); reflexivity.
  - right; right; right. eexists. now apply sweep_tick_cache.
Qed.

(** X14. Whatever sequence of requests and timer ticks the server has
    seen since it started, every key of the cache begins with
    ["welcome_"] or with ["referral_"]: no other route writes the map. *)
Theorem X14_cache_holds_only_notification_keys :
  forall (events : list Server.event) (k : string),
    In k (JSMap.keys (sentMessages (Server.run events initial_server))) ->
    Shape.notification_key k = true.
Proof.
  intros events.
  assert (Hgen : forall s,
            JSMap.wf (sentMessages s) ->
            (forall k, In k (JSMap.keys (sentMessages s)) ->
                       Shape.notification_key k = true) ->
            forall k, In k (JSMap.keys (sentMessages (fold_left Server.apply events s))) ->
                      Shape.notification_key k = true).
  { induction events as [|e events IH]; intros s Hwf Hs; [exact Hs|].
    simpl. apply IH; [now apply apply_preserves_wf|].
    intros k Hin.
    destruct (apply_cache_cases s e Hwf)
      as [Heq | [(k0 & w & Hk0 & _ & Heq) | [Heq | (f & Heq)]]];
      rewrite Heq in Hin.
    - now apply Hs.
    - apply keys_set_cases in Hin. destruct Hin as [-> | Hin]; auto.
    - destruct Hin.
    - apply keys_filter_subset in Hin. now apply Hs. }
  apply Hgen; [constructor | intros k []].
Qed.

Lemma get_some_in (k : string) (t : Z) (m : JSMap.t) :
  JSMap.get k m = Some t -> In (k, t) m.
Proof.
  induction m as [|[k' v'] m IH]; simpl; [discriminate|].
  destruct (String.eqb k k') eqn:E.
  - apply String.eqb_eq in E. intros [= ->]. subst. now left.
  - intros H. right. now apply IH.
Qed.

Lemma forall_set (P : string * Z -> Prop) (k : string) (v : Z) (m : JSMap.t) :
  P (k, v) -> Forall P m -> Forall P (JSMap.set k v m).
Proof.
  intros Hkv. induction m as [|[k' v'] m IH]; simpl; intros Hm.
  - now constructor.
  - inversion Hm; subst. destruct (String.eqb k k'); constructor; auto.
Qed.

Lemma forall_filter (P : string * Z -> Prop) (f : string * Z -> bool)
      (m : JSMap.t) :
  Forall P m -> Forall P (filter f m).
Proof.
  rewrite !Forall_forall. intros H e Hin. apply H.
  now apply filter_In in Hin.
Qed.

(** X15. When every request that wrote the cache read a positive clock,
    every timestamp in the cache is positive, in every state the server
    can reach: the truthiness test of line 145 then never mistakes a
    record for a missing one, and the test is the comparison of the age
    with the window. *)
Theorem X15_reachable_timestamps_are_clock_readings :
  forall (events : list Server.event) (k : string) (t : Z),
    Forall Shape.clock_ok events ->
    JSMap.get k (sentMessages (Server.run events initial_server)) = Some t ->
    Cache.clock_reading t /\
    (forall window now,
       Cache.sentRecently k window now
         (sentMessages (Server.run events initial_server))
       = (now - t <? window)).
Proof.
  intros events k t Hclocks Hget.
  assert (Hgen : forall s,
            JSMap.wf (sentMessages s) ->
            Forall (fun e => Cache.clock_reading (snd e)) (sentMessages s) ->
            Forall (fun e => Cache.clock_reading (snd e))
                   (sentMessages (fold_left Server.apply events s))).
  { clear Hget.
    induction Hclocks as [|e events He Hrest IH]; intros s Hwf Hs; [exact Hs|].
    simpl. apply IH; [now apply apply_preserves_wf|].
    destruct (apply_cache_cases s e Hwf)
      as [Heq | [(k0 & w & _ & Hw & Heq) | [Heq | (f & Heq)]]];
      rewrite Heq.
    - exact Hs.
    - apply forall_set; [|exact Hs]. simpl.
      destruct e; try contradiction; subst; exact He.
    - constructor.
    - now apply forall_filter. }
  assert (Hall : Forall (fun e => Cache.clock_reading (snd e))
                        (sentMessages (Server.run events initial_server)))
    by (apply Hgen; constructor).
  assert (Ht : Cache.clock_reading t).
  { rewrite Forall_forall in Hall.
    apply (Hall (k, t)). now apply get_some_in. }
  split; [exact Ht|].
  intros window now. unfold Cache.sentRecently. rewrite Hget.
  unfold Cache.clock_reading in Ht.
  assert (Hnz : (t =? 0) = false) by (apply Z.eqb_neq; lia).
  now rewrite Hnz.
Qed.

Lemma X15_reachable_timestamps_are_clock_readings_witness :
  (Forall Shape.clock_ok
          [Server.Welcome Samples.a_day_later Samples.welcome_body;
           Server.SweepTick 5000] /\
   JSMap.get "welcome_42"
     (sentMessages
        (Server.run [Server.Welcome Samples.a_day_later Samples.welcome_body;
                     Server.SweepTick 5000] initial_server))
   = Some (1000 + Cache.WELCOME_WINDOW + 120)) /\
  Cache.clock_reading (1000 + Cache.WELCOME_WINDOW + 120).
Proof.
  assert (H1 : Forall Shape.clock_ok
                 [Server.Welcome Samples.a_day_later Samples.welcome_body;
                  Server.SweepTick 5000]).
  { repeat constructor. }
  assert (H2 : JSMap.get "welcome_42"
                 (sentMessages
                    (Server.run [Server.Welcome Samples.a_day_later
                                   Samples.welcome_body;
                                 Server.SweepTick 5000] initial_server))
               = Some (1000 + Cache.WELCOME_WINDOW + 120)) by reflexivity.
  split; [split; assumption|].
  apply (X15_reachable_timestamps_are_clock_readings _ _ _ H1 H2).
Defined.

Lemma apply_health (s : server) (e : Server.event) :
  isHealthy (Server.apply s e)
  = isHealthy s && match e with
                   | Server.RateLimited hits => negb (Health.max Synced <? hits)
                   | _ => true
                   end.
Proof.
  destruct e as [w body | w body | w body | | | hits | clock]; simpl;
    rewrite ?andb_true_r.
  - unfold Handlers.sendWelcomeMessage.
    destruct (negb _); [reflexivity|].
    destruct (Cache.sentRecently _ _ _ _); [reflexivity|].
    destruct (platform w) as [|e]; [|destruct (bot_was_blocked e)]; reflexivity.
  - unfold Handlers.sendReferralNotification.
    destruct (_ || _); [reflexivity|].
    destruct (JSMap.has _ _); [reflexivity|].
    destruct (platform w) as [|e]; [|destruct (bot_was_blocked e)]; reflexivity.
  - unfold Handlers.sendBotMessage.
    destruct (_ || _); [reflexivity|].
    destruct (platform w) as [|e]; [|destruct (bot_was_blocked e)]; reflexivity.
  - reflexivity.
  - reflexivity.
  - unfold Health.limiter. destruct (_ <? _); simpl.
    + now rewrite andb_false_r.
    + now rewrite andb_true_r.
  - reflexivity.
Qed.

(** X16. No inbound request restores the health flag. Over every
    sequence of requests to any route, limiter rejections, sweep ticks
    and requests that end in the error middleware, an unhealthy server stays
    unhealthy; and the flag is exactly what it was when no request in the
    sequence was over the rate limit or ended in the error middleware. *)
Theorem X16_requests_never_restore_health :
  forall (events : list Http.event) (s : server),
    (isHealthy s = false -> isHealthy (Http.run events s) = false) /\
    (Forall Http.quiet events ->
     isHealthy (Http.run events s) = isHealthy s) /\
    (In Http.MiddlewareError events -> isHealthy (Http.run events s) = false).
Proof.
  intros events. unfold Http.run.
  assert (Hstep : forall s e,
            isHealthy (Http.apply s e)
            = isHealthy s
              && match e with
                 | Http.Routed (Server.RateLimited hits) =>
                     negb (Health.max Synced <? hits)
                 | Http.Routed _ => true
                 | Http.MiddlewareError => false
                 | Http.Elsewhere => true
                 end).
  { intros s [e| |]; simpl.
    - rewrite apply_health. now destruct e.
    - now rewrite andb_false_r.
    - now rewrite andb_true_r. }
  induction events as [|e events IH]; intros s; simpl.
  - repeat split; auto. intros [].
  - destruct (IH (Http.apply s e)) as (IHdown & IHsame & IHerr).
    split; [|split].
    + intros Hs. apply IHdown. rewrite Hstep, Hs. reflexivity.
    + intros Hall. inversion Hall as [|? ? He Hrest]; subst.
      rewrite (IHsame Hrest), Hstep.
      destruct e as [e| |]; [|destruct He|now rewrite andb_true_r].
      destruct e; rewrite ?andb_true_r; try reflexivity.
      unfold Http.quiet, Shape.within_limit in He. apply Z.ltb_ge in He.
      rewrite He. apply andb_true_r.
    + intros [-> | Hin]; [|now apply IHerr].
      apply IHdown. reflexivity.
Qed.

(** ** The keep-alive probe *)

(** X17. The keep-alive callback writes the flag that the [/health]
    route saw when it answered the probe, whatever the flag has become by
    the time the callback runs: for a probe answered in state [seen] and a
    callback that runs in state [later], the flag afterwards is the flag
    of [seen], or false when the probe itself was over the rate limit. So
    a server that is unhealthy when it answers its own probe is unhealthy
    after the callback, and a probe answered while healthy sets the flag
    true again even if it was set false in between. The callback leaves
    the cache alone. *)
Theorem X17_probe_writes_the_flag_it_saw :
  forall (v : variant) (hits : Z) (iso : string) (seen later : server),
    isHealthy
      (KeepAlive.tick
         (KeepAlive.Answered (status (snd (Health.get_health v hits iso seen))))
         later)
    = isHealthy seen && negb (Health.max v <? hits) /\
    sentMessages
      (KeepAlive.tick
         (KeepAlive.Answered (status (snd (Health.get_health v hits iso seen))))
         later)
    = sentMessages later.
Proof.
  intros v hits iso [healthy cache] later.
  unfold Health.get_health, Health.limiter.
  destruct (Health.max v <? hits); destruct healthy; split; reflexivity.
Qed.

(** A probe answer marks the server healthy only when its status is
    exactly 200: every other status, also another 2xx one, and a probe
    without answer set the flag to false. *)
Theorem probe_healthy_only_on_200 :
  forall (p : KeepAlive.probe) (s : server),
    isHealthy (KeepAlive.tick p s) = true <-> p = KeepAlive.Answered 200.
Proof.
  intros p s. destruct p as [code|]; simpl.
  - unfold KeepAlive.resolves.
    destruct (200 <=? code) eqn:E1; destruct (code <? 300) eqn:E2; simpl;
      try (split; [discriminate | intros [= ->]; discriminate]).
    split.
    + intros H. apply Z.eqb_eq in H. now subst.
    + intros [= ->]. reflexivity.
  - split; discriminate.
Qed.

(** ** The retry loops *)

Section RetryShape.

Variables RETRY_TIMEOUT MAX_RETRIES : Z.

(** Every run of [initWebhook] issues the requests [retries], ...,
    [retries + k] for one [k], arms [k] timers, never goes past
    [MAX_RETRIES] with a retry, and gives up only at or beyond it. *)
Lemma initWebhook_shape (answers : list Supervisor.answer) :
  forall (retries : Z) (st : Supervisor.t),
  exists k : nat,
    Supervisor.attempts
      (Supervisor.initWebhook RETRY_TIMEOUT MAX_RETRIES answers retries st)
    = Supervisor.attempts st ++ Supervisor.counting_from retries (S k) /\
    Supervisor.scheduled
      (Supervisor.initWebhook RETRY_TIMEOUT MAX_RETRIES answers retries st)
    = Supervisor.scheduled st ++ repeat RETRY_TIMEOUT k /\
    (k = O \/ retries + Z.of_nat k <= MAX_RETRIES) /\
    (Supervisor.gave_up
       (Supervisor.initWebhook RETRY_TIMEOUT MAX_RETRIES answers retries st) = true ->
     Supervisor.gave_up st = true \/
     (MAX_RETRIES <= retries + Z.of_nat k /\
      Supervisor.healthy
        (Supervisor.initWebhook RETRY_TIMEOUT MAX_RETRIES answers retries st)
      = false)).
Proof.
  induction answers as [|a later IH]; intros retries st.
  - exists O. simpl. rewrite app_nil_r. repeat split; auto.
  - destruct a.
    + exists O. simpl. rewrite app_nil_r. repeat split; auto.
    + simpl. destruct (retries <? MAX_RETRIES) eqn:E.
      * apply Z.ltb_lt in E.
        destruct (IH (retries + 1)
                    {| Supervisor.healthy := false;
                       Supervisor.attempts := Supervisor.attempts st ++ [retries];
                       Supervisor.scheduled :=
                         Supervisor.scheduled st ++ [RETRY_TIMEOUT];
                       Supervisor.gave_up := Supervisor.gave_up st |})
          as (k & Hatt & Hsch & Hbound & Hgave).
        exists (S k). simpl in Hatt, Hsch, Hgave.
        rewrite Hatt, Hsch, <- !app_assoc. simpl.
        split; [reflexivity|]. split; [reflexivity|].
        split; [right; destruct Hbound as [-> | Hb]; lia|].
        intros Hg. destruct (Hgave Hg) as [Hst | [Hmax Hflag]]; [now left|].
        right. split; [lia | exact Hflag].
      * apply Z.ltb_ge in E. exists O. simpl. rewrite app_nil_r.
        split; [reflexivity|]. split; [reflexivity|]. split; [now left|].
        intros _. right. split; [lia | reflexivity].
Qed.

(** The same for the retrying [sendMessage] of index.js. *)
Lemma sendMessage_shape (answers : list upstream) :
  forall (retries : Z) (l : Bot.start_log),
  exists k : nat,
    Bot.photos (Bot.sendMessage RETRY_TIMEOUT MAX_RETRIES answers retries l)
    = Bot.photos l ++ Supervisor.counting_from retries (S k) /\
    Bot.rescheduled (Bot.sendMessage RETRY_TIMEOUT MAX_RETRIES answers retries l)
    = Bot.rescheduled l ++ repeat RETRY_TIMEOUT k /\
    (k = O \/ retries + Z.of_nat k <= MAX_RETRIES).
Proof.
  induction answers as [|a later IH]; intros retries l.
  - exists O. simpl. rewrite app_nil_r. repeat split; auto.
  - destruct a as [|e].
    + exists O. simpl. rewrite app_nil_r. repeat split; auto.
    + simpl. destruct (Bot.blocked_exactly e).
      * exists O. simpl. rewrite app_nil_r. repeat split; auto.
      * destruct (retries <? MAX_RETRIES) eqn:E.
        -- apply Z.ltb_lt in E.
           destruct (IH (retries + 1)
                       {| Bot.photos := Bot.photos l ++ [retries];
                          Bot.rescheduled := Bot.rescheduled l ++ [RETRY_TIMEOUT] |})
             as (k & Hph & Hre & Hbound).
           exists (S k). simpl in Hph, Hre.
           rewrite Hph, Hre, <- !app_assoc. simpl.
           split; [reflexivity|]. split; [reflexivity|].
           right; destruct Hbound as [-> | Hb]; lia.
        -- exists O. simpl. rewrite app_nil_r. repeat split; auto.
Qed.

End RetryShape.

(** X18. Whatever the platform answers, in whatever order, the
    registration supervisor issues at most MAX_RETRIES + 1 requests and
    arms one timer, with the delay RETRY_TIMEOUT, before each request but
    the first. When it gives up it has issued exactly MAX_RETRIES + 1
    requests and the health flag is false. *)
Theorem X18_registration_attempts_bounded :
  forall (RETRY_TIMEOUT MAX_RETRIES : Z) (answers : list Supervisor.answer),
    0 <= MAX_RETRIES ->
    (Supervisor.attempt_count
       (Supervisor.run RETRY_TIMEOUT MAX_RETRIES answers)
     <= Z.to_nat MAX_RETRIES + 1)%nat /\
    Supervisor.scheduled (Supervisor.run RETRY_TIMEOUT MAX_RETRIES answers)
    = repeat RETRY_TIMEOUT
        (Supervisor.attempt_count
           (Supervisor.run RETRY_TIMEOUT MAX_RETRIES answers) - 1) /\
    (Supervisor.gave_up (Supervisor.run RETRY_TIMEOUT MAX_RETRIES answers) = true ->
     Supervisor.attempt_count (Supervisor.run RETRY_TIMEOUT MAX_RETRIES answers)
     = (Z.to_nat MAX_RETRIES + 1)%nat /\
     Supervisor.healthy (Supervisor.run RETRY_TIMEOUT MAX_RETRIES answers) = false).
Proof.
  intros RT MAX answers Hpos. unfold Supervisor.run, Supervisor.attempt_count.
  destruct (initWebhook_shape RT MAX answers 0 Supervisor.start)
    as (k & Hatt & Hsch & Hbound & Hgave).
  rewrite Hatt, Hsch. simpl Supervisor.attempts. simpl Supervisor.scheduled.
  rewrite !app_nil_l, length_counting_from.
  split; [destruct Hbound as [-> | Hb]; lia|].
  split; [f_equal; lia|].
  intros Hg. destruct (Hgave Hg) as [Hst | [Hmax Hflag]]; [discriminate|].
  split; [|exact Hflag].
  destruct Hbound as [-> | Hb]; lia.
Qed.

Lemma X18_registration_attempts_bounded_witness :
  0 <= 5 /\
  (Supervisor.attempt_count
     (Supervisor.run 5000 5 (repeat Supervisor.Rejected 40)) <= Z.to_nat 5 + 1)%nat.
Proof.
  assert (H : 0 <= 5) by (vm_compute; discriminate).
  split; [exact H|].
  apply (X18_registration_attempts_bounded 5000 5
           (repeat Supervisor.Rejected 40) H).
Defined.

Lemma sendMessage_exhausts (RETRY_TIMEOUT MAX_RETRIES : Z)
      (errors : list axios_error) :
  forall (retries : Z) (l : Bot.start_log),
    Forall (fun e => Bot.blocked_exactly e = false) errors ->
    retries <= MAX_RETRIES ->
    MAX_RETRIES - retries < Z.of_nat (List.length errors) ->
    Bot.sendMessage RETRY_TIMEOUT MAX_RETRIES (map Failed errors) retries l
    = {| Bot.photos :=
           Bot.photos l
           ++ Supervisor.counting_from retries
                (Z.to_nat (MAX_RETRIES - retries) + 1);
         Bot.rescheduled :=
           Bot.rescheduled l
           ++ repeat RETRY_TIMEOUT (Z.to_nat (MAX_RETRIES - retries)) |}.
Proof.
  induction errors as [|e errors IH]; intros retries l Hnot Hle Hmany.
  - simpl in Hmany. lia.
  - inversion Hnot as [|? ? He Hrest]; subst.
    simpl map. simpl Bot.sendMessage. rewrite He.
    destruct (retries <? MAX_RETRIES) eqn:E.
    + apply Z.ltb_lt in E.
      rewrite IH; [|exact Hrest | lia | simpl List.length in Hmany; lia].
      simpl Bot.photos. simpl Bot.rescheduled.
      replace (Z.to_nat (MAX_RETRIES - retries))
        with (S (Z.to_nat (MAX_RETRIES - (retries + 1)))) by lia.
      rewrite <- !app_assoc. reflexivity.
    + apply Z.ltb_ge in E.
      replace (MAX_RETRIES - retries) with 0 by lia.
      simpl. now rewrite app_nil_r.
Qed.

(** X19. The retrying [/start] reply of index.js sends the photo at most
    MAX_RETRIES + 1 times, with one RETRY_TIMEOUT timer before each send
    but the first. An error that carries no [response.data] never passes
    the blocked test of line 106, so when every send fails with such
    errors, or with any others the test does not recognise, exactly
    MAX_RETRIES + 1 sends are made. *)
Theorem X19_start_reply_attempts_bounded :
  forall (RETRY_TIMEOUT MAX_RETRIES : Z) (answers : list upstream)
         (errors : list axios_error),
    0 <= MAX_RETRIES ->
    (List.length (Bot.photos (Bot.sendMessage RETRY_TIMEOUT MAX_RETRIES
                                answers 0 Bot.no_photo))
     <= Z.to_nat MAX_RETRIES + 1)%nat /\
    Bot.rescheduled (Bot.sendMessage RETRY_TIMEOUT MAX_RETRIES answers 0 Bot.no_photo)
    = repeat RETRY_TIMEOUT
        (List.length (Bot.photos (Bot.sendMessage RETRY_TIMEOUT MAX_RETRIES
                                    answers 0 Bot.no_photo)) - 1) /\
    (forall e, response_data e = JUndefined -> Bot.blocked_exactly e = false) /\
    (Forall (fun e => Bot.blocked_exactly e = false) errors ->
     MAX_RETRIES < Z.of_nat (List.length errors) ->
     Bot.sendMessage RETRY_TIMEOUT MAX_RETRIES (map Failed errors) 0 Bot.no_photo
     = {| Bot.photos := Supervisor.counting_from 0 (Z.to_nat MAX_RETRIES + 1);
          Bot.rescheduled := repeat RETRY_TIMEOUT (Z.to_nat MAX_RETRIES) |}).
Proof.
  intros RT MAX answers errors Hpos.
  destruct (sendMessage_shape RT MAX answers 0 Bot.no_photo)
    as (k & Hph & Hre & Hbound).
  rewrite Hph, Hre. simpl Bot.photos. simpl Bot.rescheduled.
  rewrite !app_nil_l, length_counting_from.
  split; [destruct Hbound as [-> | Hb]; lia|].
  split; [f_equal; lia|].
  split.
  - intros e He. unfold Bot.blocked_exactly, description. now rewrite He.
  - intros Hnot Hmany.
    rewrite (sendMessage_exhausts RT MAX errors 0 Bot.no_photo Hnot Hpos)
      by (rewrite Z.sub_0_r; exact Hmany).
    rewrite Z.sub_0_r. reflexivity.
Qed.

Lemma X19_start_reply_attempts_bounded_witness :
  0 <= 5 /\
  (List.length (Bot.photos (Bot.sendMessage 5000 5
                              (repeat (Failed Samples.network_error) 40)
                              0 Bot.no_photo)) <= Z.to_nat 5 + 1)%nat.
Proof.
  assert (H : 0 <= 5) by (vm_compute; discriminate).
  split; [exact H|].
  apply (X19_start_reply_attempts_bounded 5000 5
           (repeat (Failed Samples.network_error) 40) [] H).
Defined.

(** ** The start link *)

(** X20. A payload made by the referral-link command is always taken up
    by [/start]: for every user id, both servers put
    ["?ref=ref_" ++ userId] behind the start button. They differ on every
    other payload: part_000 sends the bare link when the payload does not
    begin with ["ref_"], index.js appends whatever it got, also the empty
    payload. *)
Theorem X20_referral_payload_reaches_start_link :
  forall (userId : jsval) (payload : string),
    Bot.urlSent Synced (Bot.referralPayload userId)
    = (Bot.web_link ++ "?ref=ref_" ++ toString userId)%string /\
    Bot.urlSent Legacy (Bot.referralPayload userId)
    = Bot.urlSent Synced (Bot.referralPayload userId) /\
    (String.prefix "ref_" payload = false ->
     Bot.urlSent Synced payload = Bot.web_link /\
     Bot.urlSent Legacy payload = (Bot.web_link ++ "?ref=" ++ payload)%string) /\
    (String.prefix "ref_" payload = true ->
     Bot.urlSent Synced payload = Bot.urlSent Legacy payload).
Proof.
  intros userId payload.
  assert (Hsynced : Bot.urlSent Synced (Bot.referralPayload userId)
                    = (Bot.web_link ++ "?ref=ref_" ++ toString userId)%string).
  { unfold Bot.urlSent, Bot.referralPayload.
    rewrite prefix_append. reflexivity. }
  split; [exact Hsynced|]. split; [rewrite Hsynced; reflexivity|].
  split.
  - intros Hno. unfold Bot.urlSent. rewrite Hno, andb_false_r. now split.
  - intros Hyes. unfold Bot.urlSent. rewrite Hyes, andb_true_r.
    destruct payload; [discriminate | reflexivity].
Qed.

(** ** Which errors count as a blocked recipient *)

Lemma prefix_iff (p s : string) :
  String.prefix p s = true <-> exists post, s = (p ++ post)%string.
Proof.
  split.
  - revert s. induction p as [|a p IH]; intros s H.
    + now exists s.
    + destruct s as [|b s]; simpl in H; [discriminate|].
      destruct (ascii_dec a b) as [-> | _]; [|discriminate].
      destruct (IH s H) as [post ->]. now exists post.
  - intros [post ->]. apply prefix_append.
Qed.

Lemma includes_unfold (needle hay : string) :
  includes needle hay
  = String.prefix needle hay
    || match hay with
       | EmptyString => false
       | String _ rest => includes needle rest
       end.
Proof. now destruct hay. Qed.

Lemma includes_iff (needle hay : string) :
  includes needle hay = true
  <-> exists pre post, hay = (pre ++ needle ++ post)%string.
Proof.
  split.
  - induction hay as [|c hay IH]; rewrite includes_unfold; intros H.
    + rewrite orb_false_r in H. apply prefix_iff in H.
      destruct H as [post H]. now exists EmptyString, post.
    + apply orb_true_iff in H. destruct H as [H | H].
      * apply prefix_iff in H. destruct H as [post H].
        now exists EmptyString, post.
      * destruct (IH H) as (pre & post & ->).
        now exists (String c pre), post.
  - intros (pre & post & ->).
    induction pre as [|c pre IH]; rewrite includes_unfold.
    + change (EmptyString ++ needle ++ post)%string with (needle ++ post)%string.
      now rewrite prefix_append.
    + change (String c pre ++ needle ++ post)%string
        with (String c (pre ++ needle ++ post)%string).
      cbv beta iota. rewrite IH. apply orb_true_r.
Qed.

Lemma existsb_item (needle : string) (items : list jsval) :
  existsb (fun x => match x with
                    | JStr item => String.eqb item needle
                    | _ => false
                    end) items = true
  <-> In (JStr needle) items.
Proof.
  rewrite existsb_exists. split.
  - intros (x & Hin & Hx). destruct x; try discriminate.
    apply String.eqb_eq in Hx. now subst.
  - intros Hin. exists (JStr needle). split; [exact Hin|].
    apply String.eqb_refl.
Qed.

(** X21. The blocked test of the API routes, as the source evaluates it
    ([Inputs.blocked_branch]): it takes the blocked branch exactly when
    the description is a string that contains "bot was blocked" or an
    array that has this very string as an item; it throws exactly when the
    description is a number, a boolean or an object. On a description that
    is a string or absent it is the test [bot_was_blocked] the handlers of
    this file use. Every error the exact comparison of the bot commands
    takes for blocked, the API routes take for blocked too. *)
Theorem X21_blocked_recipient_tests :
  forall e : axios_error,
    (Inputs.blocked_branch e = Some true
     <-> (exists pre post,
            description e = JStr (pre ++ "bot was blocked" ++ post))
         \/ (exists items,
               description e = JArr items /\ In (JStr "bot was blocked") items)) /\
    (Inputs.blocked_branch e = None
     <-> (exists b, description e = JBool b)
         \/ (exists n, description e = JNum n)
         \/ (exists fields, description e = JObj fields)) /\
    (Inputs.text_or_absent (description e) = true ->
     Inputs.blocked_branch e = Some (bot_was_blocked e)) /\
    (Bot.blocked_exactly e = true -> Inputs.blocked_branch e = Some true).
Proof.
  intros e. unfold Inputs.blocked_branch, bot_was_blocked, Bot.blocked_exactly.
  destruct (description e) as [| |b|n|d|items|fields]; simpl.
  - repeat split; try discriminate.
    + intros [(pre & post & H) | (items & H & _)]; discriminate.
    + intros [(b & H) | [(n & H) | (f & H)]]; discriminate.
  - repeat split; try discriminate.
    + intros [(pre & post & H) | (items & H & _)]; discriminate.
    + intros [(b & H) | [(n & H) | (f & H)]]; discriminate.
  - repeat split; try discriminate.
    + intros [(pre & post & H) | (items & H & _)]; discriminate.
    + intros _. left. now exists b.
  - repeat split; try discriminate.
    + intros [(pre & post & H) | (items & H & _)]; discriminate.
    + intros _. right; left. now exists n.
  - split; [|split; [|split]].
    + split.
      * intros [= H]. apply includes_iff in H.
        destruct H as (pre & post & ->). left. now exists pre, post.
      * intros [(pre & post & [= ->]) | (items & H & _)]; [|discriminate].
        f_equal. apply includes_iff. now exists pre, post.
    + split; [discriminate|].
      intros [(b & H) | [(n & H) | (f & H)]]; discriminate.
    + reflexivity.
    + intros H. apply String.eqb_eq in H. subst d. reflexivity.
  - split; [|split; [|split]]; try discriminate.
    + split.
      * intros [= H]. apply existsb_item in H. right. now exists items.
      * intros [(pre & post & H) | (items' & [= ->] & Hin)]; [discriminate|].
        f_equal. now apply existsb_item.
    + split; [discriminate|].
      intros [(b & H) | [(n & H) | (f & H)]]; discriminate.
  - repeat split; try discriminate.
    + intros [(pre & post & H) | (items & H & _)]; discriminate.
    + intros _. right; right. now exists fields.
Qed.

Lemma X14_cache_holds_only_notification_keys_witness :
  In "welcome_42"
     (JSMap.keys (sentMessages
                    (Server.run [Server.Welcome Samples.a_day_later
                                   Samples.welcome_body] initial_server))) /\
  Shape.notification_key "welcome_42" = true.
Proof.
  assert (H : In "welcome_42"
                (JSMap.keys (sentMessages
                               (Server.run [Server.Welcome Samples.a_day_later
                                              Samples.welcome_body]
                                           initial_server))))
    by (left; reflexivity).
  split; [exact H|].
  apply (X14_cache_holds_only_notification_keys _ _ H).
Defined.
